(** * finapps.stocks: market-data store, look-back resolver and digest

    A shallow embedding of [finapps/stocks/dao.py] and
    [finapps/stocks/service.py], followed by the properties the
    specification states about them.

    - Python exceptions are an error type [exn]; a call that may raise
      returns [Res].
    - The service reads the store and writes to the log: [Svc] is a
      reader over the store that also accumulates the trace of store
      queries and log records and may raise.
    - The [MKT_DATA] table is a finite map from its primary key
      [(MKT_SYMBOL, MKT_DATE)] to the remaining columns.
    - [float64] columns are IEEE-754 binary64 numbers (Rocq's primitive
      floats); [int64] volumes and date ordinals are integers. *)

From Stdlib Require Import ZArith Floats Lia Ascii.
From stdpp Require Import gmap strings list fin_maps pretty sorting.

Open Scope string_scope.
Open Scope list_scope.
Open Scope Z_scope.

(** ** Exceptions and results *)

Inductive exn : Set :=
| DigestError        (* finapps.stocks.service.DigestError *)
| RuntimeError
| IndexError
| TypeError
| AttributeError
| ValueError
| OverflowError
| ZeroDivisionError.

Inductive Res (A : Type) : Type :=
| Ok (a : A)
| Raise (e : exn).

Arguments Ok {A} a.
Arguments Raise {A} e.

Definition res_bind {A B} (r : Res A) (k : A → Res B) : Res B :=
  match r with
  | Ok a => k a
  | Raise e => Raise e
  end.

(** [res_traverse f l] evaluates [f] on the elements from left to right
    and stops at the first exception: a list comprehension, or [apply]
    over a column. *)
Fixpoint res_traverse {A B} (f : A → Res B) (l : list A) : Res (list B) :=
  match l with
  | [] => Ok []
  | a :: l' =>
      res_bind (f a) (λ b, res_bind (res_traverse f l') (λ bs, Ok (b :: bs)))
  end.

(** ** Python numbers *)

Module PyNum.

(** [int(x)] for a float: truncation toward zero; [int(inf)] raises
    OverflowError and [int(nan)] raises ValueError. A finite binary64
    number is [(-1)^s * m * 2^e]; shifting the mantissa left by [e]
    (right when [e] is negative) drops the fractional bits. *)
Definition py_int (x : float) : Res Z :=
  match Prim2SF x with
  | S754_zero _ => Ok 0
  | S754_infinity _ => Raise OverflowError
  | S754_nan => Raise ValueError
  | S754_finite s m e =>
      let mag := Z.shiftl (Z.pos m) e in
      Ok (if s then - mag else mag)
  end.

(** The float nearest to an [int64] (exact below [2^53] in magnitude). *)
Definition float_of_Z (z : Z) : float :=
  if z <? 0 then (- PrimFloat.of_uint63 (Uint63.of_Z (- z)))%float
  else PrimFloat.of_uint63 (Uint63.of_Z z).

(** [a / b] on Python floats. *)
Definition float_truediv (a b : float) : Res float :=
  if PrimFloat.is_zero b then Raise ZeroDivisionError else Ok (a / b)%float.

(** [a / b] on Python ints: true division. CPython divides the two
    operands as doubles whenever both are exactly representable (below
    [2^53] in magnitude), which every traded volume is. *)
Definition int_truediv (a b : Z) : Res float :=
  if b =? 0 then Raise ZeroDivisionError
  else Ok (float_of_Z a / float_of_Z b)%float.

(** [str(n)] for an int. *)
Definition str_int (n : Z) : string := pretty n.

(** Rounding [m * 2^e] ([m] non-negative) to an integer, ties to even:
    what the [.0f] presentation type does with the exact binary value. *)
Definition round_half_even (m e : Z) : Z :=
  if 0 <=? e then m * 2 ^ e
  else
    let d := 2 ^ (- e) in
    let q := m / d in
    let r := m mod d in
    match 2 * r ?= d with
    | Lt => q
    | Gt => q + 1
    | Eq => if Z.even q then q else q + 1
    end.

(** The [,] option: a comma between groups of three digits, counted
    from the right. [rev_digits] is the digit string reversed and [k]
    the number of digits already put in the current group. *)
Fixpoint group_rev (rev_digits : list ascii) (k : nat) : list ascii :=
  match rev_digits with
  | [] => []
  | c :: rest =>
      match k with
      | 3%nat => ","%char :: c :: group_rev rest 1
      | _ => c :: group_rev rest (S k)
      end
  end.

Definition thousands (digits : string) : string :=
  String.string_of_list_ascii
    (rev (group_rev (rev (String.list_ascii_of_string digits)) 0)).

(** [f'{x:,.0f}'] for a float. *)
Definition format_comma_0f (x : float) : string :=
  match Prim2SF x with
  | S754_nan => "nan"
  | S754_infinity s => if s then "-inf" else "inf"
  | S754_zero s => if s then "-0" else "0"
  | S754_finite s m e =>
      (if s then "-" else "")
        +:+ thousands (str_int (round_half_even (Z.pos m) e))
  end.

End PyNum.

(** ** Calendar dates

    A [datetime.date] is its proleptic Gregorian ordinal
    ([date.toordinal()]: 1 is 0001-01-01). *)

Module PyDate.

Definition MINORDINAL : Z := 1.
Definition MAXORDINAL : Z := 3652059.   (* 9999-12-31 *)

Definition valid (d : Z) : Prop := MINORDINAL ≤ d ≤ MAXORDINAL.

(** [d - datetime.timedelta(days=n)]: OverflowError outside the range
    of [datetime.date]. *)
Definition sub_days (d n : Z) : Res Z :=
  let r := d - n in
  if (MINORDINAL <=? r) && (r <=? MAXORDINAL) then Ok r
  else Raise OverflowError.

Definition DI400Y : Z := 146097.
Definition DI100Y : Z := 36524.
Definition DI4Y : Z := 1461.

Definition days_in_month (leap : bool) (month : Z) : Z :=
  match month with
  | 2 => if leap then 29 else 28
  | 4 | 6 | 9 | 11 => 30
  | _ => 31
  end.

Definition days_before_month (leap : bool) (month : Z) : Z :=
  match month with
  | 1 => 0 | 2 => 31 | 3 => 59 | 4 => 90 | 5 => 120 | 6 => 151
  | 7 => 181 | 8 => 212 | 9 => 243 | 10 => 273 | 11 => 304 | _ => 334
  end + (if (2 <? month) && leap then 1 else 0).

(** [datetime._ord2ymd]: ordinal to (year, month, day). *)
Definition ord2ymd (ordinal : Z) : Z * Z * Z :=
  let n := ordinal - 1 in
  let n400 := n / DI400Y in
  let n := n mod DI400Y in
  let n100 := n / DI100Y in
  let n := n mod DI100Y in
  let n4 := n / DI4Y in
  let n := n mod DI4Y in
  let n1 := n / 365 in
  let n := n mod 365 in
  let year := n400 * 400 + 1 + n100 * 100 + n4 * 4 + n1 in
  if (n1 =? 4) || (n100 =? 4) then (year - 1, 12, 31)
  else
    let leap := (n1 =? 3) && (negb (n4 =? 24) || (n100 =? 3)) in
    let month := Z.shiftr (n + 50) 5 in
    let preceding := days_before_month leap month in
    if n <? preceding
    then (year, month - 1,
          n - (preceding - days_in_month leap (month - 1)) + 1)
    else (year, month, n - preceding + 1).

(** [date.weekday()]: Monday is 0. *)
Definition weekday (ordinal : Z) : Z := (ordinal + 6) mod 7.

Definition day_abbr (wd : Z) : string :=
  match wd with
  | 0 => "Mon" | 1 => "Tue" | 2 => "Wed" | 3 => "Thu"
  | 4 => "Fri" | 5 => "Sat" | _ => "Sun"
  end.

Definition month_abbr (m : Z) : string :=
  match m with
  | 1 => "Jan" | 2 => "Feb" | 3 => "Mar" | 4 => "Apr" | 5 => "May"
  | 6 => "Jun" | 7 => "Jul" | 8 => "Aug" | 9 => "Sep" | 10 => "Oct"
  | 11 => "Nov" | _ => "Dec"
  end.

Definition pad2 (n : Z) : string :=
  if n <? 10 then "0" +:+ PyNum.str_int n else PyNum.str_int n.

(** [d.strftime('%a %d %b %y')], e.g. "Tue 02 Jan 24". *)
Definition strftime_a_d_b_y (d : Z) : string :=
  let '(y, m, dd) := ord2ymd d in
  day_abbr (weekday d) +:+ " " +:+ pad2 dd +:+ " " +:+ month_abbr m
    +:+ " " +:+ pad2 (y mod 100).

End PyDate.

(** ** finapps/stocks/dao.py *)

Module MarketDataDAO.

(** One row of a frame laid out as [self.schema]: [str], [datetime64]
    (a date, as its ordinal), four [float64] and one [int64]. *)
Record Bar : Type := mkBar {
  MKT_SYMBOL : string;
  MKT_DATE : Z;
  MKT_OPEN : float;
  MKT_HIGH : float;
  MKT_LOW : float;
  MKT_CLOSE : float;
  MKT_VOLUME : Z
}.

(** A pandas frame of market data: the column labels and the rows. *)
Record DataFrame : Type := mkFrame {
  columns : list string;
  rows : list Bar
}.

(** [df.empty]: some axis has length zero. *)
Definition empty (df : DataFrame) : bool :=
  match columns df, rows df with
  | [], _ | _, [] => true
  | _, _ => false
  end.

Definition schema : list (string * string) :=
  [ ("MKT_SYMBOL", "str"); ("MKT_DATE", "datetime64");
    ("MKT_OPEN", "float64"); ("MKT_HIGH", "float64");
    ("MKT_LOW", "float64"); ("MKT_CLOSE", "float64");
    ("MKT_VOLUME", "int64") ].

Definition schema_keys : list string := schema.*1.

(** The columns of [MKT_DATA] outside its primary key. *)
Record Quote : Type := mkQuote {
  q_open : float;
  q_high : float;
  q_low : float;
  q_close : float;
  q_volume : Z
}.

(** The table [MKT_DATA]: primary key (MKT_SYMBOL, MKT_DATE), the key
    named by [ON CONFLICT (MKT_SYMBOL,MKT_DATE)]. *)
Abbreviation Table := (gmap (string * Z) Quote).

Definition quote_of (b : Bar) : Quote :=
  mkQuote (MKT_OPEN b) (MKT_HIGH b) (MKT_LOW b) (MKT_CLOSE b) (MKT_VOLUME b).

Definition key_of (b : Bar) : string * Z := (MKT_SYMBOL b, MKT_DATE b).

Definition row_of (kv : string * Z * Quote) : Bar :=
  let '(symbol, date, q) := kv in
  mkBar symbol date (q_open q) (q_high q) (q_low q) (q_close q) (q_volume q).

(** [to_schema]: casts every column of the frame that the schema names
    to the dtype given there. The rows of a [DataFrame] already carry
    those dtypes, and [astype] to a column's own dtype leaves its values
    as they are. *)
Definition astype (c : string) (b : Bar) : Bar := b.

Definition to_schema (df : DataFrame) : DataFrame :=
  let target_cols := filter (λ c, c ∈ schema_keys) (columns df) in
  mkFrame (columns df)
    (foldl (λ rs c, astype c <$> rs) (rows df) target_cols).

(** The WHERE clause of [select]. *)
Definition matches (symbol : string) (lo_date hi_date : Z)
    (kv : string * Z * Quote) : Prop :=
  kv.1.1 = symbol ∧ lo_date ≤ kv.1.2 ∧ kv.1.2 ≤ hi_date.

Global Instance matches_dec symbol lo hi kv :
  Decision (matches symbol lo hi kv).
Proof. unfold matches. apply _. Defined.

(** [select]: the rows of the symbol dated within [lo_date, hi_date],
    both ends included, as a frame with the schema's columns. *)
Definition select (tbl : Table) (symbol : string) (lo_date hi_date : Z)
    : DataFrame :=
  let result := row_of <$> filter (matches symbol lo_date hi_date)
                             (map_to_list tbl) in
  to_schema (mkFrame schema_keys result).

(** One execution of the INSERT ... ON CONFLICT ... DO UPDATE statement. *)
Definition upsert (tbl : Table) (b : Bar) : Table :=
  <[key_of b := quote_of b]> tbl.

(** [insert]: rejects a frame whose column set differs from the
    schema's, otherwise runs the statement once per record, in order. *)
Definition insert (tbl : Table) (df : DataFrame) : Res Table :=
  if decide (list_to_set (columns df) =@{gset string} list_to_set schema_keys)
  then
    let df := to_schema df in
    Ok (foldl upsert tbl (rows df))
  else Raise RuntimeError.

(** [min_max_dates]: SELECT MIN(MKT_DATE), MAX(MKT_DATE) over the rows of
    the symbol, as [cur.fetchone()] hands the row back: both are None when
    the symbol has no row. *)
Definition min_max_dates (tbl : Table) (symbol : string)
    : option Z * option Z :=
  let dates :=
    (λ kv : string * Z * Quote, kv.1.2)
      <$> filter (λ kv : string * Z * Quote, kv.1.1 = symbol)
            (map_to_list tbl) in
  match dates with
  | [] => (None, None)
  | d :: ds => (Some (foldr Z.min d ds), Some (foldr Z.max d ds))
  end.

End MarketDataDAO.

(** ** finapps/stocks/service.py *)

Module StockService.
Import MarketDataDAO.

(** What the service does to the outside: queries sent to the DAO and
    records sent to the logger. *)
Inductive Event : Type :=
| DaoSelect (symbol : string) (lo_date hi_date : Z)
| LogWarning (symbol : string) (as_of_date : Z)
| LogInfo (symbol : string) (as_of_date closest : Z).

(** A service call: reads the table, emits events, returns or raises. *)
Definition Svc (A : Type) : Type := Table → list Event * Res A.

Definition ret {A} (a : A) : Svc A := λ _, ([], Ok a).

Definition bind {A B} (m : Svc A) (k : A → Svc B) : Svc B :=
  λ tbl,
    match m tbl with
    | (t1, Ok a) => let '(t2, r) := k a tbl in (t1 ++ t2, r)
    | (t1, Raise e) => (t1, Raise e)
    end.

Definition lift {A} (r : Res A) : Svc A := λ _, ([], r).

Definition raise {A} (e : exn) : Svc A := lift (Raise e).

Definition log (ev : Event) : Svc unit := λ _, ([ev], Ok tt).

Definition dao_select (symbol : string) (lo_date hi_date : Z) : Svc DataFrame :=
  λ tbl, ([DaoSelect symbol lo_date hi_date], Ok (select tbl symbol lo_date hi_date)).

Notation "'let!' x := y 'in' z" := (bind y (λ x, z))
  (at level 10, x name, y at level 100, z at level 200, only parsing).
Notation "'exec!' y 'in' z" := (bind y (λ _, z))
  (at level 10, y at level 100, z at level 200, only parsing).

(** A dict comprehension or a loop over a list: left to right, stopping
    at the first exception. *)
Fixpoint for_each {A B} (f : A → Svc B) (l : list A) : Svc (list B) :=
  match l with
  | [] => ret []
  | a :: l' => let! b := f a in let! bs := for_each f l' in ret (b :: bs)
  end.

(** The value a call hands back: [None] or a frame. *)
Inductive pyval : Type :=
| PyNone
| PyFrame (df : DataFrame).

Definition is_None (v : pyval) : bool :=
  match v with PyNone => true | PyFrame _ => false end.

(** [df.sort_values(by='MKT_DATE', ascending=False)]: the rows of one
    symbol carry distinct dates, so the order of equal keys plays no
    part. *)
Fixpoint insert_desc (b : Bar) (l : list Bar) : list Bar :=
  match l with
  | [] => [b]
  | x :: l' =>
      if MKT_DATE x <? MKT_DATE b then b :: l else x :: insert_desc b l'
  end.

Definition sort_values_desc (l : list Bar) : list Bar :=
  foldr insert_desc [] l.

(** [maybe_get_data]: the newest bar of the symbol dated within
    [look_back] days up to [as_of_date], or the empty frame. The date is
    the midnight [datetime] the command line parses, held as the ordinal
    of its day. *)
Definition maybe_get_data (symbol : string) (as_of_date : Z) (look_back : Z)
    : Svc pyval :=
  let! lo_date := lift (PyDate.sub_days as_of_date look_back) in
  let! df := dao_select symbol lo_date as_of_date in
  if empty df then
    exec! log (LogWarning symbol as_of_date) in
    ret (PyFrame df)
  else
    let data := mkFrame (columns df) (take 1 (sort_values_desc (rows df))) in
    match rows data with
    | [] => raise IndexError                 (* data['MKT_DATE'].iloc[0] *)
    | b :: _ =>
        exec! (if bool_decide (MKT_DATE b ≠ as_of_date)
               then log (LogInfo symbol as_of_date (MKT_DATE b))
               else ret tt) in
        ret (PyFrame data)
    end.

(** The default of [look_back]. *)
Definition look_back_default : Z := 5.

(** A number as [digest_str] receives it: a float (closes) or an int
    (volumes). *)
Inductive num : Type :=
| PyFloat (f : float)
| PyInt (z : Z).

Definition to_float (x : num) : float :=
  match x with PyFloat f => f | PyInt z => PyNum.float_of_Z z end.

Definition num_sub (a b : num) : num :=
  match a, b with
  | PyInt x, PyInt y => PyInt (x - y)
  | _, _ => PyFloat (to_float a - to_float b)%float
  end.

Definition num_truediv (a b : num) : Res float :=
  match a, b with
  | PyInt x, PyInt y => PyNum.int_truediv x y
  | _, _ => PyNum.float_truediv (to_float a) (to_float b)
  end.

(** Line 77: [int((compare_value - value) / value * 100)]. *)
Definition pct_of (value compare_value : num) : Res Z :=
  res_bind (num_truediv (num_sub compare_value value) value)
    (λ q, PyNum.py_int (q * 100)%float).

(** Lines 78-83. *)
Definition indicator_of (pct : Z) : string :=
  if 0 <? pct then "↑"
  else if pct <? 0 then "↓"
  else "→".

(** The six offsets of [config], label and days, in the order the dict
    literal lists them. *)
Definition OffsetSpec : list (string * Z) :=
  [ ("1d", 1); ("1m", 30); ("3m", 90); ("6m", 180); ("1y", 365);
    ("3y", 365 * 3) ].

(** [json.dumps(config)]: the encoder has no case for a date, so a dict
    holding one raises TypeError. *)
Definition json_dumps (config : list (string * Z)) : Res string :=
  match config with
  | [] => Ok "{}"
  | _ :: _ => Raise TypeError
  end.

(** [df['MKT_DATE'].values[0]]. *)
Definition first_date (v : pyval) : Res Z :=
  match v with
  | PyNone => Raise TypeError
  | PyFrame df =>
      match rows df with
      | [] => Raise IndexError
      | b :: _ => Ok (MKT_DATE b)
      end
  end.

(** The rows of a frame with the column LABEL set to [label]. *)
Definition with_label (lv : string * pyval) : Res (list (string * Bar)) :=
  match lv.2 with
  | PyNone => Raise TypeError
  | PyFrame df => Ok (pair lv.1 <$> rows df)
  end.

(** Line 122: [digest.sort_values(by=['MKT_DATE'], ascending=False)] on
    the labelled rows. *)
Fixpoint insert_labelled_desc (r : string * Bar) (l : list (string * Bar))
    : list (string * Bar) :=
  match l with
  | [] => [r]
  | x :: l' =>
      if MKT_DATE x.2 <? MKT_DATE r.2 then r :: l
      else x :: insert_labelled_desc r l'
  end.

(** A frame with an index: the result of [pivot]. A cell is a string or
    missing (NaN). *)
Record Wide : Type := mkWide {
  w_index : list string;
  w_columns : list string;
  w_values : list (list (option string))
}.

(** The digest as returned: column labels and rows of cells. *)
Record Report : Type := mkReport {
  r_columns : list string;
  r_rows : list (list (option string))
}.

Fixpoint insert_sorted (x : string) (l : list string) : list string :=
  match l with
  | [] => [x]
  | y :: l' =>
      if String.eqb x y then l
      else if String.ltb x y then x :: l
      else y :: insert_sorted x l'
  end.

(** The distinct labels of an axis, ascending, as [pivot] orders them. *)
Definition sorted_unique (l : list string) : list string :=
  foldr insert_sorted [] l.

(** [digest.melt(id_vars='LABEL', value_vars=metrics, var_name='METRIC')]
    on rows (LABEL, CLOSE, VOLUME): rows (LABEL, METRIC, value), one
    block per metric. *)
Definition melt (rs : list (string * string * string))
    : list (string * string * string) :=
  ((λ r, (r.1.1, "CLOSE", r.1.2)) <$> rs)
    ++ ((λ r, (r.1.1, "VOLUME", r.2)) <$> rs).

Definition cell_at (tall : list (string * string * string))
    (metric label : string) : option string :=
  snd <$> (snd <$> list_find (λ r, r.1.2 = metric ∧ r.1.1 = label) tall).

(** [digest.pivot(index='METRIC', columns='LABEL', values='value')]:
    ValueError when an (index, column) pair occurs twice. *)
Definition pivot (tall : list (string * string * string)) : Res Wide :=
  let keys := (λ r, (r.1.2, r.1.1)) <$> tall in
  if bool_decide (NoDup keys) then
    let index := sorted_unique ((λ r, r.1.2) <$> tall) in
    let cols := sorted_unique ((λ r, r.1.1) <$> tall) in
    Ok (mkWide index cols
          ((λ m, (λ l, cell_at tall m l) <$> cols) <$> index))
  else Raise ValueError.

(** [digest.insert(loc=..., column=..., value=...)]. *)
Definition wide_insert (w : Wide) (loc : nat) (column : string)
    (value : list string) : Res Wide :=
  if bool_decide (column ∈ w_columns w) then Raise ValueError
  else if negb (length value =? length (w_index w))%nat then Raise ValueError
  else if (length (w_columns w) <? loc)%nat then Raise IndexError
  else
    Ok (mkWide (w_index w)
          (take loc (w_columns w) ++ column :: drop loc (w_columns w))
          (zip_with (λ v row, take loc row ++ Some v :: drop loc row)
             value (w_values w))).

(** [digest.reset_index()]: the index becomes the first column, named
    METRIC after it. *)
Definition reset_index (w : Wide) : Res Report :=
  if bool_decide ("METRIC" ∈ w_columns w) then Raise ValueError
  else
    Ok (mkReport ("METRIC" :: w_columns w)
          (zip_with (λ m row, Some m :: row) (w_index w) (w_values w))).

Section Digest.

(** [ballpark.business]: the magnitude abbreviation of a number. *)
Variable business : num → string.

(** Lines 85-88: the value as shown in a cell. *)
Definition formatted_value (value : num) (ballpark_value : bool) : string :=
  if ballpark_value then business value
  else PyNum.format_comma_0f (to_float value).

(** [digest_str], the closure inside [digest]. *)
Definition digest_str (value compare_value : num) (ballpark_value : bool)
    : Res string :=
  res_bind (pct_of value compare_value) (λ pct,
    let indicator := indicator_of pct in
    let value := formatted_value value ballpark_value in
    Ok (value +:+ " (" +:+ indicator +:+ " " +:+ PyNum.str_int pct +:+ "%)")).

(** Lines 97-104: the target date of every offset. *)
Definition digest_config (as_of_date : Z) : Res (list (string * Z)) :=
  res_traverse
    (λ lo, res_bind (PyDate.sub_days as_of_date lo.2) (λ d, Ok (lo.1, d)))
    OffsetSpec.

(** Lines 107-115: the two strict checks on the resolved frames. Both
    messages are built with [json.dumps(config)] before the raise. *)
Definition strict_checks (config : list (string * Z))
    (data_by_label : list (string * pyval)) : Res unit :=
  let no_data := filter (λ v, is_None v) data_by_label.*2 in
  if (0 <? length no_data)%nat then
    res_bind (json_dumps config) (λ _, Raise DigestError)
  else
    res_bind (res_traverse first_date data_by_label.*2) (λ dates,
      if negb (length (remove_dups dates) =? length dates)%nat then
        res_bind (json_dumps config) (λ _, Raise DigestError)
      else Ok tt).

(** Lines 117-163: label, concatenate, compare with the as-of bar, and
    reshape from tall to wide. *)
Definition digest_table (symbol : string) (as_of_date : Z)
    (as_of_data : DataFrame) (data_by_label : list (string * pyval))
    : Res Report :=
  res_bind (res_traverse with_label data_by_label) (λ labelled,
  let digest := foldr insert_labelled_desc [] (concat labelled) in
  match rows as_of_data with
  | [] => Raise IndexError                          (* as_of_data.iloc[0] *)
  | as_of_bar :: _ =>
      let as_of_close := PyFloat (MKT_CLOSE as_of_bar) in
      let as_of_vol := PyInt (MKT_VOLUME as_of_bar) in
      res_bind (res_traverse
                  (λ r, digest_str (PyFloat (MKT_CLOSE r.2)) as_of_close false)
                  digest) (λ close,
      res_bind (res_traverse
                  (λ r, digest_str (PyInt (MKT_VOLUME r.2)) as_of_vol true)
                  digest) (λ volume,
      let digest := zip (zip digest.*1 close) volume in
      let digest := melt digest in
      res_bind (pivot digest) (λ digest,
      let as_of_label := PyDate.strftime_a_d_b_y as_of_date in
      let as_of_close := formatted_value as_of_close false in
      let as_of_vol := formatted_value as_of_vol true in
      res_bind (wide_insert digest 0 as_of_label [as_of_close; as_of_vol])
        (λ digest,
      res_bind (wide_insert digest 0 "SYMBOL" (replicate 2 symbol))
        (λ digest,
      reset_index digest)))))
  end).

(** [digest]. *)
Definition digest (symbol : string) (as_of_date : Z) : Svc Report :=
  let! as_of_data := maybe_get_data symbol as_of_date 0 in
  match as_of_data with
  | PyNone => raise AttributeError                    (* None.empty *)
  | PyFrame as_of_data =>
      if empty as_of_data then raise DigestError
      else
        let! config := lift (digest_config as_of_date) in
        let! data_by_label :=
          for_each
            (λ ld, let! v := maybe_get_data symbol ld.2 look_back_default in
                   ret (ld.1, v))
            config in
        exec! lift (strict_checks config data_by_label) in
        lift (digest_table symbol as_of_date as_of_data data_by_label)
  end.

End Digest.

End StockService.

(** ** Vocabulary of the specification *)

Module Spec.
Import MarketDataDAO StockService.

(** The bar the resolver settles on for a target date and a look-back
    window: the head of the window's rows, newest first. *)
Definition resolve (tbl : Table) (symbol : string) (target look_back : Z)
    : list Bar :=
  take 1 (sort_values_desc (rows (select tbl symbol (target - look_back) target))).

(** The symbol has a bar dated within [lo, hi]. *)
Definition has_bar_in (tbl : Table) (symbol : string) (lo hi : Z) : Prop :=
  ∃ k q, tbl !! (symbol, k) = Some q ∧ lo ≤ k ≤ hi.

(** The log records of one resolution: a warning when nothing is found,
    a notice when the bar found is older than the target. *)
Definition resolve_events (symbol : string) (target : Z) (found : list Bar)
    : list Event :=
  match found with
  | [] => [LogWarning symbol target]
  | b :: _ =>
      if bool_decide (MKT_DATE b ≠ target)
      then [LogInfo symbol target (MKT_DATE b)]
      else []
  end.

(** Newest first. *)
Definition desc (x y : Bar) : Prop := MKT_DATE y ≤ MKT_DATE x.



(** The cell of a report in the row of [metric] under the column
    [label]. *)
Definition report_cell (rep : Report) (metric label : string)
    : option string :=
  row ← snd <$> list_find (λ row, head row = Some (Some metric)) (r_rows rep);
  i ← fst <$> list_find (λ c, c = label) (r_columns rep);
  mjoin (row !! i).

(** The target date of every offset. *)
Definition targets (as_of_date : Z) : list (string * Z) :=
  (λ lo, (lo.1, as_of_date - lo.2)) <$> OffsetSpec.

(** What [digest] gathers: under every label, the frame of what the
    resolver settles on for the label's target date. *)
Definition gathered (tbl : Table) (symbol : string) (as_of_date : Z)
    : list (string * pyval) :=
  (λ ld, (ld.1, PyFrame (mkFrame schema_keys
                           (resolve tbl symbol ld.2 look_back_default))))
    <$> targets as_of_date.

(** The positions in OffsetSpec of the labels in ascending order:
    1d, 1m, 1y, 3m, 3y, 6m. *)
Definition pivot_order : list nat := [0; 1; 4; 2; 5; 3]%nat.

(** The report [digest] lays out from the as-of bar and the comparison
    cells of the six offsets, given in OffsetSpec order. *)
Definition laid_out (business : num → string) (symbol : string)
    (as_of_date : Z) (as_of_bar : Bar) (close volume : list string) : Report :=
  mkReport
    ("METRIC" :: "SYMBOL" :: PyDate.strftime_a_d_b_y as_of_date
       :: ["1d"; "1m"; "1y"; "3m"; "3y"; "6m"])
    [ Some "CLOSE" :: Some symbol
        :: Some (formatted_value business (PyFloat (MKT_CLOSE as_of_bar)) false)
        :: ((λ i, close !! i) <$> pivot_order);
      Some "VOLUME" :: Some symbol
        :: Some (formatted_value business (PyInt (MKT_VOLUME as_of_bar)) true)
        :: ((λ i, volume !! i) <$> pivot_order) ].

(** The outcome the specification allows for [digest]: a report of two
    rows and one column per offset plus two, or DigestError. *)
Definition two_by_eight_or_DigestError (r : Res Report) : Prop :=
  match r with
  | Ok rep => length (r_rows rep) = 2%nat
              ∧ length (r_columns rep) = (length OffsetSpec + 2)%nat
  | Raise DigestError => True
  | Raise _ => False
  end.

End Spec.

(** ** The end-to-end scenario of the specification *)

Module Scenario.
Import MarketDataDAO StockService.

(** 2024-01-02. *)
Definition as_of : Z := 738887.

Definition bar (date : Z) (close : float) (volume : Z) : Bar :=
  mkBar "ABC" date close close close close volume.

Definition frame (bars : list Bar) : DataFrame := mkFrame schema_keys bars.

(** The two bars the scenario lists. *)
Definition two_bars : list Bar :=
  [ bar as_of 100 1000000; bar (as_of - 1) 90 500000 ].

(** A bar inside the window of each of the five remaining offsets. *)
Definition older_bars : list Bar :=
  [ bar (as_of - 32) 95 800000; bar (as_of - 91) 85 900000;
    bar (as_of - 180) 80 1200000; bar (as_of - 367) 75 700000;
    bar (as_of - 1096) 50 400000 ].

Definition loaded (bars : list Bar) : Table := foldl upsert ∅ bars.

Definition store_two : Table := loaded two_bars.
Definition store_full : Table := loaded (two_bars ++ older_bars).

(** A stand-in for [ballpark.business] in the concrete runs: whole
    millions as M, whole thousands as K. *)
Definition business_si (x : num) : string :=
  match x with
  | PyFloat f => PyNum.format_comma_0f f
  | PyInt z =>
      if 1000000 <=? Z.abs z then PyNum.str_int (z ÷ 1000000) +:+ "M"
      else if 1000 <=? Z.abs z then PyNum.str_int (z ÷ 1000) +:+ "K"
      else PyNum.str_int z
  end.

(** What [digest] prints for 2024-01-02 over [store_full]. *)
Definition report_full : Report :=
  mkReport
    ["METRIC"; "SYMBOL"; "Tue 02 Jan 24"; "1d"; "1m"; "1y"; "3m"; "3y"; "6m"]
    [ [Some "CLOSE"; Some "ABC"; Some "100"; Some "90 (↑ 11%)";
       Some "95 (↑ 5%)"; Some "75 (↑ 33%)"; Some "85 (↑ 17%)";
       Some "50 (↑ 100%)"; Some "80 (↑ 25%)"];
      [Some "VOLUME"; Some "ABC"; Some "1M"; Some "500K (↑ 100%)";
       Some "800K (↑ 25%)"; Some "700K (↑ 42%)"; Some "900K (↑ 11%)";
       Some "400K (↑ 150%)"; Some "1M (↓ -16%)"] ].


End Scenario.

(** ** bin/stocks/digest.py *)

Module DigestCli.
Import MarketDataDAO StockService.

(** What a run of the command does to the outside, in order. *)
Inductive Output : Type :=
| Service (e : Event)                       (* done by [svc.digest] *)
| DaoMinMax (symbol : string)               (* the query of [min_max_dates] *)
| InfoMinDate (symbol : string) (d : Z)     (* [logging.info], line 63 *)
| InfoMaxDate (symbol : string) (d : Z)     (* [logging.info], line 64 *)
| Printed (digest : Report)                 (* [print_digest] *)
| InfoFinished.                             (* [logger.info('Finished')] *)

Section Main.

Variable business : num → string.

(** [main] from line 62 on: the arguments are parsed ([valid_date] hands
    over a date) and the service is wired to the store.
    [svc.min_max_dates] passes the DAO's answer through; both log lines
    call [strftime] on it, which None does not have. *)
Definition main (symbol : string) (date : Z) (tbl : Table)
    : list Output * Res unit :=
  let '(min_date, max_date) := min_max_dates tbl symbol in
  match min_date with
  | None => ([DaoMinMax symbol], Raise AttributeError)
  | Some lo =>
      match max_date with
      | None =>
          ([DaoMinMax symbol; InfoMinDate symbol lo], Raise AttributeError)
      | Some hi =>
          let '(trace, r) := digest business symbol date tbl in
          let before :=
            [DaoMinMax symbol; InfoMinDate symbol lo; InfoMaxDate symbol hi]
              ++ (Service <$> trace) in
          match r with
          | Ok rep => (before ++ [Printed rep; InfoFinished], Ok tt)
          | Raise e => (before, Raise e)
          end
      end
  end.

End Main.

End DigestCli.

(** ** Observations on runs *)

Module Observe.
Import MarketDataDAO StockService.

(** The ranges the service asks the DAO for, in order. *)
Definition queries (trace : list Event) : list (string * Z * Z) :=
  omap (λ e, match e with
             | DaoSelect symbol lo hi => Some (symbol, lo, hi)
             | _ => None
             end) trace.

(** The seven ranges of a digest: the as-of day, then the window of each
    offset in OffsetSpec order. *)
Definition digest_ranges (symbol : string) (as_of_date : Z)
    : list (string * Z * Z) :=
  (symbol, as_of_date, as_of_date)
    :: ((λ lo : string * Z,
           (symbol, as_of_date - lo.2 - look_back_default, as_of_date - lo.2))
          <$> OffsetSpec).

(** The last record of a batch written under a key. *)
Definition last_with_key (k : string * Z) (bs : list Bar) : option Bar :=
  last (filter (λ b, key_of b = k) bs).

(** The symbol has a bar on some date. *)
Definition has_rows (tbl : Table) (symbol : string) : Prop :=
  ∃ k q, tbl !! (symbol, k) = Some q.

End Observe.

(** * Properties *)

Import MarketDataDAO StockService Spec.

(** ** Results *)

Lemma res_traverse_Ok_Forall2 {A B} (f : A → Res B) l r :
  res_traverse f l = Ok r → Forall2 (λ a b, f a = Ok b) l r.
Proof.
  revert r. induction l as [|a l IH]; intros r; simpl.
  - intros [= <-]. constructor.
  - destruct (f a) as [b|e] eqn:Hfa; simpl; [|discriminate].
    destruct (res_traverse f l) as [bs|e]; simpl; [|discriminate].
    intros [= <-]. constructor; auto.
Qed.

Lemma Forall2_res_traverse_Ok {A B} (f : A → Res B) l r :
  Forall2 (λ a b, f a = Ok b) l r → res_traverse f l = Ok r.
Proof.
  induction 1 as [|a b l r Hab _ IH]; simpl; [done|].
  by rewrite Hab; simpl; rewrite IH.
Qed.

(** ** Numbers *)

Section Numbers.





End Numbers.

Section DigestStr.

Variable business : num → string.



End DigestStr.

(** The quotient is a binary64 number: against a base of 100, 129 falls
    just short of 29 and truncates to 28. *)
Remark pct_of_100_129 : pct_of (PyFloat 100) (PyFloat 129) = Ok 28.
Proof. vm_compute. reflexivity. Qed.


(** ** The store *)

Section Store.

Implicit Types (tbl : Table) (b : Bar) (df : DataFrame).

Lemma to_schema_rows df : rows (to_schema df) = rows df.
Proof.
  unfold to_schema; simpl.
  generalize (filter (λ c, c ∈ schema_keys) (columns df)) as cs.
  generalize (rows df) as rs.
  intros rs cs. revert rs.
  induction cs as [|c cs IH]; intros rs; simpl; [done|].
  rewrite IH. unfold astype. apply list_fmap_id.
Qed.

Lemma rows_select tbl symbol lo hi :
  rows (select tbl symbol lo hi)
  = row_of <$> filter (matches symbol lo hi) (map_to_list tbl).
Proof. unfold select. by rewrite to_schema_rows. Qed.

Lemma columns_select tbl symbol lo hi :
  columns (select tbl symbol lo hi) = schema_keys.
Proof. reflexivity. Qed.

Lemma row_of_key_quote b : row_of (key_of b, quote_of b) = b.
Proof. by destruct b. Qed.

Lemma row_of_inv k q b : row_of (k, q) = b → k = key_of b ∧ q = quote_of b.
Proof. destruct k, q. intros <-. done. Qed.

(** A row is selected exactly when the table holds it under its key,
    for the symbol asked and a date within the range. *)
Lemma elem_of_select tbl symbol lo hi b :
  b ∈ rows (select tbl symbol lo hi)
  ↔ tbl !! key_of b = Some (quote_of b)
    ∧ MKT_SYMBOL b = symbol ∧ lo ≤ MKT_DATE b ≤ hi.
Proof.
  rewrite rows_select, list_elem_of_fmap. split.
  - intros ([k q] & Hb & [Hm Hin%elem_of_map_to_list]%list_elem_of_filter).
    symmetry in Hb. apply row_of_inv in Hb as [-> ->].
    destruct Hm as (Hs & Hlo & Hhi). simpl in *. done.
  - intros (Hin & Hs & Hlo & Hhi). exists (key_of b, quote_of b).
    split; [by rewrite row_of_key_quote|].
    apply list_elem_of_filter. split; [done|].
    by apply elem_of_map_to_list.
Qed.

(** The primary key: a symbol has at most one selected row per date. *)
Lemma NoDup_select_dates tbl symbol lo hi :
  NoDup (MKT_DATE <$> rows (select tbl symbol lo hi)).
Proof.
  rewrite rows_select, <- list_fmap_compose.
  apply NoDup_fmap_2_strong.
  - intros [[s1 d1] q1] [[s2 d2] q2]
      [(Hs1 & _) Hin1%elem_of_map_to_list]%list_elem_of_filter
      [(Hs2 & _) Hin2%elem_of_map_to_list]%list_elem_of_filter Hd.
    simpl in *. subst s1 s2.
    assert (d1 = d2) as -> by (by destruct q1, q2).
    rewrite Hin1 in Hin2. by injection Hin2 as ->.
  - apply NoDup_filter, NoDup_map_to_list.
Qed.

Lemma filter_none {A} (P : A → Prop) `{∀ x, Decision (P x)} (l : list A) :
  (∀ x, x ∈ l → ¬ P x) → filter P l = [].
Proof.
  induction l as [|a l IH]; intros Hl; [done|].
  rewrite filter_cons_False by (apply Hl; left).
  apply IH. intros x Hx. apply Hl. by right.
Qed.


Lemma insert_Ok tbl df :
  list_to_set (columns df) =@{gset string} list_to_set schema_keys →
  insert tbl df = Ok (foldl upsert tbl (rows df)).
Proof.
  intros Hcols. unfold insert.
  destruct (decide _) as [_|Hne]; [|done]. by rewrite to_schema_rows.
Qed.

Lemma insert_Ok_inv tbl df tbl' :
  insert tbl df = Ok tbl' →
  list_to_set (columns df) =@{gset string} list_to_set schema_keys
  ∧ tbl' = foldl upsert tbl (rows df).
Proof.
  unfold insert. destruct (decide _) as [Hc|_]; [|discriminate].
  rewrite to_schema_rows. by intros [= <-].
Qed.





End Store.


(** ** The look-back resolver *)

Section Resolver.

Implicit Types (tbl : Table) (b : Bar) (l : list Bar).

Lemma insert_desc_Permutation b l : insert_desc b l ≡ₚ b :: l.
Proof.
  induction l as [|x l IH]; simpl; [done|].
  destruct (MKT_DATE x <? MKT_DATE b); [done|].
  rewrite IH. apply Permutation_swap.
Qed.

Lemma sort_values_desc_Permutation l : sort_values_desc l ≡ₚ l.
Proof.
  induction l as [|x l IH]; simpl; [done|].
  unfold sort_values_desc in *. simpl.
  by rewrite insert_desc_Permutation, IH.
Qed.

Lemma insert_desc_sorted b l :
  StronglySorted desc l → StronglySorted desc (insert_desc b l).
Proof.
  induction 1 as [|x l Hsorted IH Hall]; simpl.
  - repeat constructor.
  - destruct (Z.ltb_spec (MKT_DATE x) (MKT_DATE b)) as [Hlt|Hge].
    + constructor; [by constructor|].
      constructor; [unfold desc; lia|].
      eapply Forall_impl; [exact Hall|]. unfold desc. simpl. lia.
    + constructor; [done|].
      rewrite insert_desc_Permutation. by constructor.
Qed.

Lemma sort_values_desc_sorted l : StronglySorted desc (sort_values_desc l).
Proof.
  induction l as [|x l IH]; [constructor|].
  by apply insert_desc_sorted.
Qed.

(** The head of the sorted rows is a row of the frame and no row is
    newer. *)
Lemma sort_values_desc_head l b rest :
  sort_values_desc l = b :: rest →
  b ∈ l ∧ ∀ x, x ∈ l → MKT_DATE x ≤ MKT_DATE b.
Proof.
  intros Hsort.
  pose proof (sort_values_desc_Permutation l) as Hperm.
  pose proof (sort_values_desc_sorted l) as Hsorted.
  rewrite Hsort in Hperm, Hsorted.
  split.
  - rewrite <- Hperm. by left.
  - intros x Hx. rewrite <- Hperm in Hx.
    apply elem_of_cons in Hx as [->|Hx]; [done|].
    apply StronglySorted_inv in Hsorted as [_ Hall].
    by apply (proj1 (Forall_forall _ _) Hall).
Qed.

Lemma sort_values_desc_nil l : sort_values_desc l = [] → l = [].
Proof.
  intros Hsort. apply Permutation_nil_r.
  rewrite <- Hsort. by rewrite sort_values_desc_Permutation.
Qed.

Lemma has_bar_in_select tbl symbol lo hi :
  has_bar_in tbl symbol lo hi ↔ ∃ b, b ∈ rows (select tbl symbol lo hi).
Proof.
  split.
  - intros (k & q & Hk & Hrange). exists (row_of (symbol, k, q)).
    apply elem_of_select. by destruct q.
  - intros (b & (Hb & <- & Hrange)%elem_of_select).
    by exists (MKT_DATE b), (quote_of b).
Qed.

(** Nothing is resolved exactly when the window holds no bar. *)
Lemma resolve_nil tbl symbol target w :
  resolve tbl symbol target w = []
  ↔ ¬ has_bar_in tbl symbol (target - w) target.
Proof.
  rewrite has_bar_in_select. unfold resolve. split.
  - intros Hnil (b & Hb).
    destruct (sort_values_desc _) as [|x xs] eqn:Hsort; [|done].
    apply sort_values_desc_nil in Hsort. rewrite Hsort in Hb.
    by apply elem_of_nil in Hb.
  - intros Hnone.
    destruct (sort_values_desc _) as [|x xs] eqn:Hsort; [done|].
    apply sort_values_desc_head in Hsort as [Hx _]. destruct Hnone. eauto.
Qed.

(** What is resolved is a single bar of the window, and none in the
    window is newer. *)
Lemma resolve_cons tbl symbol target w b rest :
  resolve tbl symbol target w = b :: rest →
  rest = []
  ∧ tbl !! key_of b = Some (quote_of b)
  ∧ MKT_SYMBOL b = symbol
  ∧ target - w ≤ MKT_DATE b ≤ target
  ∧ ∀ k q, tbl !! (symbol, k) = Some q → target - w ≤ k ≤ target →
           k ≤ MKT_DATE b.
Proof.
  unfold resolve.
  destruct (sort_values_desc _) as [|x xs] eqn:Hsort; [done|].
  simpl. intros [= <- <-].
  apply sort_values_desc_head in Hsort as [Hx Hmax].
  split; [done|].
  apply elem_of_select in Hx as (Hx & Hs & Hrange).
  repeat split; try done; try lia.
  intros k q Hk Hkr.
  apply (Hmax (row_of (symbol, k, q))).
  apply elem_of_select. by destruct q.
Qed.

Lemma resolve_length tbl symbol target w :
  (length (resolve tbl symbol target w) ≤ 1)%nat.
Proof.
  destruct (resolve _ _ _ _) as [|b rest] eqn:Hres; simpl; [lia|].
  apply resolve_cons in Hres as [-> _]. simpl. lia.
Qed.

(** With no look-back only the bar dated on the target is resolved. *)
Lemma resolve_exact tbl symbol target :
  resolve tbl symbol target 0
  = match tbl !! (symbol, target) with
    | Some q => [row_of (symbol, target, q)]
    | None => []
    end.
Proof.
  destruct (resolve tbl symbol target 0) as [|b rest] eqn:Hres.
  - apply resolve_nil in Hres.
    destruct (tbl !! (symbol, target)) as [q|] eqn:Hq; [|done].
    destruct Hres. exists target, q. split; [done|lia].
  - apply resolve_cons in Hres as (-> & Hb & Hs & Hrange & _).
    assert (MKT_DATE b = target) as Hd by lia.
    assert (key_of b = (symbol, target)) as Hkey
      by (unfold key_of; by rewrite Hs, Hd).
    rewrite <- Hkey, Hb. by rewrite row_of_key_quote.
Qed.

Lemma sub_days_valid d n :
  PyDate.valid (d - n) → PyDate.sub_days d n = Ok (d - n).
Proof.
  unfold PyDate.valid, PyDate.sub_days. intros [Hlo Hhi].
  destruct (Z.leb_spec PyDate.MINORDINAL (d - n)); [|lia].
  destruct (Z.leb_spec (d - n) PyDate.MAXORDINAL); [done|lia].
Qed.

Lemma sub_days_overflow d n :
  ¬ PyDate.valid (d - n) → PyDate.sub_days d n = Raise OverflowError.
Proof.
  unfold PyDate.valid, PyDate.sub_days. intros Hnot.
  destruct (Z.leb_spec PyDate.MINORDINAL (d - n)); [|done].
  destruct (Z.leb_spec (d - n) PyDate.MAXORDINAL); [lia|done].
Qed.

Lemma sub_days_Ok_inv d n r :
  PyDate.sub_days d n = Ok r → r = d - n ∧ PyDate.valid r.
Proof.
  unfold PyDate.valid, PyDate.sub_days.
  destruct (Z.leb_spec PyDate.MINORDINAL (d - n)); [|done].
  destruct (Z.leb_spec (d - n) PyDate.MAXORDINAL); [|done].
  simpl. intros [= <-]. lia.
Qed.

(** One run of the resolver whose window starts at a valid date: one
    query to the DAO, the log records, and the frame of what is
    resolved. *)
Lemma maybe_get_data_valid tbl symbol target w :
  PyDate.valid (target - w) →
  maybe_get_data symbol target w tbl
  = (DaoSelect symbol (target - w) target
       :: resolve_events symbol target (resolve tbl symbol target w),
     Ok (PyFrame (mkFrame schema_keys (resolve tbl symbol target w)))).
Proof.
  intros Hvalid. unfold maybe_get_data, bind, lift, dao_select, resolve.
  rewrite (sub_days_valid _ _ Hvalid).
  pose proof (columns_select tbl symbol (target - w) target) as Hcols.
  destruct (select tbl symbol (target - w) target) as [cs rws].
  simpl in Hcols. subst cs. cbn [rows columns].
  destruct rws as [|r rs]; [done|].
  destruct (sort_values_desc (r :: rs)) as [|x xs] eqn:Hsort.
  { by apply sort_values_desc_nil in Hsort. }
  cbn. destruct (bool_decide (MKT_DATE x ≠ target)); done.
Qed.

Lemma maybe_get_data_overflow tbl symbol target w :
  ¬ PyDate.valid (target - w) →
  maybe_get_data symbol target w tbl = ([], Raise OverflowError).
Proof.
  intros Hnot. unfold maybe_get_data, bind, lift.
  by rewrite (sub_days_overflow _ _ Hnot).
Qed.

End Resolver.

Section ResolverClaims.

Implicit Types (tbl : Table) (b : Bar).



Lemma for_each_Ok_inv {A B} (f : A → Svc B) (l : list A) tbl trace r :
  for_each f l tbl = (trace, Ok r) →
  Forall2 (λ x y, ∃ t, f x tbl = (t, Ok y)) l r.
Proof.
  revert trace r. induction l as [|a l IH]; intros trace r; simpl.
  - unfold ret. intros [= _ <-]. constructor.
  - unfold bind at 1. destruct (f a tbl) as [t1 [y|e]] eqn:Hfa; [|done].
    unfold bind at 1.
    destruct (for_each f l tbl) as [t2 [bs|e]] eqn:Hrest; [|done].
    unfold ret. simpl. intros [= _ <-]. constructor; eauto.
Qed.

Lemma maybe_get_data_not_None tbl symbol d w trace v :
  maybe_get_data symbol d w tbl = (trace, Ok v) → is_None v = false.
Proof.
  destruct (decide (PyDate.valid (d - w))) as [Hvalid|Hnot].
  - rewrite (maybe_get_data_valid _ _ _ _ Hvalid). by intros [= _ <-].
  - by rewrite (maybe_get_data_overflow _ _ _ _ Hnot).
Qed.

(** C10. For every symbol, date and look-back window, what the resolver
    returns is a frame and never None; that the window holds no bar
    shows as the empty frame; so the missing-data check of [digest],
    which keeps the results that are None, keeps nothing. *)
Theorem maybe_get_data_returns_a_frame tbl symbol d w :
  PyDate.valid (d - w) →
  (∃ trace df,
     maybe_get_data symbol d w tbl = (trace, Ok (PyFrame df))
     ∧ (empty df = true ↔ ¬ has_bar_in tbl symbol (d - w) d))
  ∧ (∀ d' w' trace v,
       maybe_get_data symbol d' w' tbl = (trace, Ok v) → is_None v = false)
  ∧ (∀ config trace data_by_label,
       for_each
         (λ ld : string * Z,
            let! v := maybe_get_data symbol ld.2 look_back_default in
            ret (ld.1, v))
         config tbl = (trace, Ok data_by_label) →
       filter (λ v, is_None v) data_by_label.*2 = []).
Proof.
  intros Hvalid. split; [|split].
  - eexists _, _. split; [by apply maybe_get_data_valid|].
    rewrite <- resolve_nil. unfold empty. simpl.
    by destruct (resolve tbl symbol d w).
  - intros d' w' trace v. apply maybe_get_data_not_None.
  - intros config trace data Hrun. apply filter_none.
    intros v Hv. apply list_elem_of_fmap in Hv as ([label v'] & -> & Hin).
    apply for_each_Ok_inv in Hrun.
    apply list_elem_of_lookup in Hin as [i Hi].
    destruct (Forall2_lookup_r _ _ _ _ _ Hrun Hi) as (ld & _ & t & Hf).
    unfold bind in Hf.
    destruct (maybe_get_data symbol ld.2 look_back_default tbl)
      as [t1 [v1|e]] eqn:Hget; [|done].
    unfold ret in Hf. simpl in Hf. injection Hf as _ _ <-.
    simpl. rewrite (maybe_get_data_not_None _ _ _ _ _ _ Hget). by intros [].
Qed.

Lemma maybe_get_data_returns_a_frame_witness :
  PyDate.valid (Scenario.as_of - 30 - 5)
  ∧ ∃ trace,
      maybe_get_data "ABC" (Scenario.as_of - 30) 5 Scenario.store_two
      = (trace, Ok (PyFrame (mkFrame schema_keys []))).
Proof.
  assert (PyDate.valid (Scenario.as_of - 30 - 5)) as Hvalid
    by (vm_compute; split; discriminate).
  split; [exact Hvalid|].
  destruct (maybe_get_data_returns_a_frame Scenario.store_two "ABC"
              (Scenario.as_of - 30) 5 Hvalid)
    as ((trace & df & Hrun & _) & _).
  exists trace. rewrite Hrun. vm_compute in Hrun.
  injection Hrun as _ <-. reflexivity.
Defined.

End ResolverClaims.

(** ** The digest *)

Section ServiceMonad.

Lemma bind_Ok {A B} (m : Svc A) (k : A → Svc B) tbl t a :
  m tbl = (t, Ok a) → bind m k tbl = (t ++ (k a tbl).1, (k a tbl).2).
Proof. unfold bind. intros ->. by destruct (k a tbl). Qed.

Lemma bind_Raise {A B} (m : Svc A) (k : A → Svc B) tbl t e :
  m tbl = (t, Raise e) → bind m k tbl = (t, Raise e).
Proof. unfold bind. by intros ->. Qed.

End ServiceMonad.

Section Gathering.

Implicit Types (tbl : Table).

Lemma valid_offsets d :
  PyDate.valid d → PyDate.valid (d - 1095) →
  Forall (λ lo : string * Z, PyDate.valid (d - lo.2)) OffsetSpec.
Proof.
  unfold PyDate.valid, PyDate.MINORDINAL, PyDate.MAXORDINAL, OffsetSpec.
  intros ??. repeat constructor; simpl; lia.
Qed.

Lemma digest_config_valid d :
  PyDate.valid d → PyDate.valid (d - 1095) →
  digest_config d = Ok (targets d).
Proof.
  intros Hd Hlast. unfold digest_config, targets.
  apply Forall2_res_traverse_Ok.
  apply Forall2_fmap_r, Forall_Forall2_diag.
  eapply Forall_impl; [exact (valid_offsets d Hd Hlast)|].
  intros lo Hvalid. simpl. by rewrite (sub_days_valid _ _ Hvalid).
Qed.

Lemma digest_config_Ok_inv d config :
  digest_config d = Ok config →
  config = targets d ∧ PyDate.valid (d - 1) ∧ PyDate.valid (d - 1095).
Proof.
  unfold digest_config, targets, OffsetSpec. simpl.
  repeat match goal with
         | |- context [PyDate.sub_days ?x ?n] =>
             let r := fresh "r" in
             let Hr := fresh "Hr" in
             destruct (PyDate.sub_days x n) as [r|] eqn:Hr; simpl;
             [apply sub_days_Ok_inv in Hr as [-> ?]|discriminate]
         end.
  by intros [= <-].
Qed.

(** Gathering over targets whose windows start at valid dates runs the
    resolver once per target, in order. *)
Lemma for_each_resolve tbl symbol (config : list (string * Z)) :
  Forall (λ ld, PyDate.valid (ld.2 - look_back_default)) config →
  ∃ trace,
    for_each
      (λ ld : string * Z,
         let! v := maybe_get_data symbol ld.2 look_back_default in
         ret (ld.1, v))
      config tbl
    = (trace,
       Ok ((λ ld, (ld.1, PyFrame (mkFrame schema_keys
                                    (resolve tbl symbol ld.2 look_back_default))))
             <$> config)).
Proof.
  induction 1 as [|ld config Hvalid _ [trace IH]]; simpl.
  - by eexists.
  - eexists. erewrite bind_Ok; last first.
    { erewrite bind_Ok by (by apply maybe_get_data_valid). reflexivity. }
    erewrite (bind_Ok (for_each _ _)) by exact IH. reflexivity.
Qed.

End Gathering.

Section DigestRun.

Variable business : num → string.

Implicit Types (tbl : Table).

Lemma empty_frame_nil : empty (mkFrame schema_keys []) = true.
Proof. reflexivity. Qed.

Lemma empty_frame_cons b l : empty (mkFrame schema_keys (b :: l)) = false.
Proof. reflexivity. Qed.

Lemma valid_sub_0 d : PyDate.valid d → PyDate.valid (d - 0).
Proof. by rewrite Z.sub_0_r. Qed.

(** No bar on the as-of date: one query, one warning, DigestError. *)
Lemma digest_as_of_missing tbl symbol d :
  PyDate.valid d → resolve tbl symbol d 0 = [] →
  digest business symbol d tbl
  = ([DaoSelect symbol d d; LogWarning symbol d], Raise DigestError).
Proof.
  intros Hvalid Hres. unfold digest.
  erewrite bind_Ok by (apply maybe_get_data_valid, valid_sub_0, Hvalid).
  rewrite Hres, empty_frame_nil, Z.sub_0_r. reflexivity.
Qed.

Lemma gathered_windows_valid tbl symbol d trace data :
  for_each
    (λ ld : string * Z,
       let! v := maybe_get_data symbol ld.2 look_back_default in
       ret (ld.1, v))
    (targets d) tbl = (trace, Ok data) →
  Forall (λ ld : string * Z, PyDate.valid (ld.2 - look_back_default))
    (targets d).
Proof.
  intros Hrun%for_each_Ok_inv. apply Forall_forall. intros ld Hin.
  apply list_elem_of_lookup in Hin as [i Hi].
  destruct (Forall2_lookup_l _ _ _ _ _ Hrun Hi) as (y & _ & t & Hf).
  destruct (decide (PyDate.valid (ld.2 - look_back_default))) as [|Hnot];
    [done|].
  erewrite bind_Raise in Hf by (by apply maybe_get_data_overflow). done.
Qed.

(** With valid dates throughout, [digest] is the checks and the layout
    applied to what the resolver gathers. *)
Lemma digest_run tbl symbol d :
  PyDate.valid d → PyDate.valid (d - 1100) →
  (digest business symbol d tbl).2
  = match resolve tbl symbol d 0 with
    | [] => Raise DigestError
    | a :: rest =>
        res_bind (strict_checks (targets d) (gathered tbl symbol d))
          (λ _, digest_table business symbol d
                  (mkFrame schema_keys (a :: rest)) (gathered tbl symbol d))
    end.
Proof.
  intros Hd Hlast.
  destruct (resolve tbl symbol d 0) as [|a rest] eqn:Hres.
  { by rewrite digest_as_of_missing. }
  assert (PyDate.valid (d - 1095)) as Hcfg
    by (unfold PyDate.valid, PyDate.MINORDINAL, PyDate.MAXORDINAL in *; lia).
  assert (Forall (λ ld : string * Z, PyDate.valid (ld.2 - look_back_default))
            (targets d)) as Hwin.
  { unfold targets, OffsetSpec, look_back_default,
      PyDate.valid, PyDate.MINORDINAL, PyDate.MAXORDINAL in *.
    repeat constructor; simpl; lia. }
  destruct (for_each_resolve tbl symbol _ Hwin) as [trace Hgather].
  unfold digest.
  erewrite bind_Ok by (apply maybe_get_data_valid, valid_sub_0, Hd).
  rewrite Hres, empty_frame_cons.
  erewrite bind_Ok by (unfold lift; by rewrite digest_config_valid).
  erewrite bind_Ok by exact Hgather.
  cbv beta. fold (gathered tbl symbol d). cbn [snd].
  by destruct (strict_checks (targets d) (gathered tbl symbol d)) as [[]|e].
Qed.

(** [digest] returns only for as-of dates whose windows all start at
    valid dates. *)
Lemma digest_Ok_valid tbl symbol d rep :
  (digest business symbol d tbl).2 = Ok rep →
  PyDate.valid d ∧ PyDate.valid (d - 1100).
Proof.
  intros Hrun.
  destruct (decide (PyDate.valid d)) as [Hd|Hnot]; last first.
  { unfold digest in Hrun. erewrite bind_Raise in Hrun; [done|].
    apply maybe_get_data_overflow. by rewrite Z.sub_0_r. }
  split; [done|]. unfold digest in Hrun.
  erewrite bind_Ok in Hrun by (apply maybe_get_data_valid, valid_sub_0, Hd).
  cbn [snd] in Hrun.
  destruct (resolve tbl symbol d 0) as [|a rest].
  { by rewrite empty_frame_nil in Hrun. }
  rewrite empty_frame_cons in Hrun.
  destruct (digest_config d) as [config|e] eqn:Hcfg; last first.
  { erewrite bind_Raise in Hrun by reflexivity. done. }
  erewrite bind_Ok in Hrun by reflexivity.
  cbn [snd] in Hrun.
  apply digest_config_Ok_inv in Hcfg as (-> & _ & _).
  match type of Hrun with
  | (bind (for_each ?f ?l) _ _).2 = _ =>
      destruct (for_each f l tbl) as [t [data|e]] eqn:Hgather
  end; last first.
  { erewrite bind_Raise in Hrun by exact Hgather. done. }
  apply gathered_windows_valid in Hgather.
  assert (("3y", d - 1095) ∈ targets d) as Hin
    by (unfold targets, OffsetSpec; set_solver).
  apply (proj1 (Forall_forall _ _) Hgather) in Hin.
  unfold look_back_default in Hin. simpl in Hin.
  by replace (d - 1100) with (d - 1095 - 5) by lia.
Qed.

End DigestRun.

Section Reshaping.

Lemma remove_dups_NoDup {A} `{EqDecision A} (l : list A) :
  NoDup l → remove_dups l = l.
Proof.
  induction 1 as [|x l Hx _ IH]; simpl; [done|].
  destruct (decide_rel _ x l); [done|]. by rewrite IH.
Qed.

(** Rows already newest first stay as they are. *)
Lemma sort_labelled_sorted (l : list (string * Bar)) :
  StronglySorted (λ x y, MKT_DATE y.2 < MKT_DATE x.2) l →
  foldr insert_labelled_desc [] l = l.
Proof.
  induction 1 as [|x l _ IH Hall]; simpl; [done|].
  rewrite IH. destruct Hall as [|y l' Hy _]; simpl; [done|].
  destruct (Z.ltb_spec (MKT_DATE y.2) (MKT_DATE x.2)); [done|lia].
Qed.

(** The pivot of the six labelled comparison cells: metrics and labels
    come out in ascending order. *)
Lemma pivot_melt_six (c1 c2 c3 c4 c5 c6 v1 v2 v3 v4 v5 v6 : string) :
  pivot (melt [ ("1d", c1, v1); ("1m", c2, v2); ("3m", c3, v3);
                ("6m", c4, v4); ("1y", c5, v5); ("3y", c6, v6) ])
  = Ok (mkWide ["CLOSE"; "VOLUME"] ["1d"; "1m"; "1y"; "3m"; "3y"; "6m"]
          [ [Some c1; Some c2; Some c5; Some c3; Some c6; Some c4];
            [Some v1; Some v2; Some v5; Some v3; Some v6; Some v4] ]).
Proof. vm_compute. reflexivity. Qed.

Lemma wide_insert_fresh (w : Wide) (column : string) (value : list string) :
  column ∉ w_columns w → length value = length (w_index w) →
  wide_insert w 0 column value
  = Ok (mkWide (w_index w) (column :: w_columns w)
          (zip_with (λ v row, Some v :: row) value (w_values w))).
Proof.
  intros Hnew Hlen. unfold wide_insert.
  rewrite bool_decide_eq_false_2 by done.
  rewrite Hlen, Nat.eqb_refl. simpl. do 2 f_equal.
Qed.

Lemma reset_index_fresh (w : Wide) :
  "METRIC" ∉ w_columns w →
  reset_index w
  = Ok (mkReport ("METRIC" :: w_columns w)
          (zip_with (λ m row, Some m :: row) (w_index w) (w_values w))).
Proof. intros Hnew. unfold reset_index. by rewrite bool_decide_eq_false_2. Qed.

Lemma day_abbr_shape wd :
  ∃ a b c, PyDate.day_abbr wd = String a (String b (String c "")).
Proof.
  unfold PyDate.day_abbr.
  destruct wd as [|p|p]; try (do 3 eexists; reflexivity).
  do 3 (destruct p as [p|p|]; try (do 3 eexists; reflexivity)).
Qed.

(** The as-of column label starts with a weekday and a blank, so it is
    none of the other column labels. *)
Lemma strftime_fresh d :
  (PyDate.strftime_a_d_b_y d ∉ ["1d"; "1m"; "1y"; "3m"; "3y"; "6m"])
  ∧ PyDate.strftime_a_d_b_y d ≠ "SYMBOL"
  ∧ PyDate.strftime_a_d_b_y d ≠ "METRIC".
Proof.
  unfold PyDate.strftime_a_d_b_y.
  destruct (PyDate.ord2ymd d) as [[y m] dd].
  destruct (day_abbr_shape (PyDate.weekday d)) as (a & b & c & ->).
  cbv [String.append].
  split; [|split]; [|discriminate..].
  rewrite !elem_of_cons, elem_of_nil. intros [|[|[|[|[|[|[]]]]]]]; discriminate.
Qed.

Lemma fresh_column (x label : string) (labels : list string) :
  x ≠ label → bool_decide (x ∈ labels) = false → x ∉ label :: labels.
Proof.
  intros Hne Hnot [->|Hin]%elem_of_cons; [done|].
  by rewrite bool_decide_eq_true_2 in Hnot.
Qed.

End Reshaping.

Section DigestTable.

Variable business : num → string.

Implicit Types (tbl : Table).

(** The layout of six single bars, newest first: the comparison cells
    are computed label by label, closes before volumes, and laid out
    under the sorted labels. *)
Lemma digest_table_six symbol d a rest b1 b2 b3 b4 b5 b6 :
  MKT_DATE b2 < MKT_DATE b1 → MKT_DATE b3 < MKT_DATE b2 →
  MKT_DATE b4 < MKT_DATE b3 → MKT_DATE b5 < MKT_DATE b4 →
  MKT_DATE b6 < MKT_DATE b5 →
  digest_table business symbol d (mkFrame schema_keys (a :: rest))
    [ ("1d", PyFrame (mkFrame schema_keys [b1]));
      ("1m", PyFrame (mkFrame schema_keys [b2]));
      ("3m", PyFrame (mkFrame schema_keys [b3]));
      ("6m", PyFrame (mkFrame schema_keys [b4]));
      ("1y", PyFrame (mkFrame schema_keys [b5]));
      ("3y", PyFrame (mkFrame schema_keys [b6])) ]
  = res_bind
      (res_traverse
         (λ b, digest_str business (PyFloat (MKT_CLOSE b))
                 (PyFloat (MKT_CLOSE a)) false)
         [b1; b2; b3; b4; b5; b6])
      (λ close,
         res_bind
           (res_traverse
              (λ b, digest_str business (PyInt (MKT_VOLUME b))
                      (PyInt (MKT_VOLUME a)) true)
              [b1; b2; b3; b4; b5; b6])
           (λ volume, Ok (laid_out business symbol d a close volume))).
Proof.
  intros H1 H2 H3 H4 H5. unfold digest_table.
  cbn [res_traverse with_label res_bind snd fst rows fmap list_fmap concat app].
  rewrite sort_labelled_sorted by (repeat constructor; simpl; lia).
  cbn [res_traverse snd].
  destruct (digest_str business (PyFloat (MKT_CLOSE b1)) _ false) as [c1|e];
    cbn [res_bind]; [|reflexivity].
  destruct (digest_str business (PyFloat (MKT_CLOSE b2)) _ false) as [c2|e];
    cbn [res_bind]; [|reflexivity].
  destruct (digest_str business (PyFloat (MKT_CLOSE b3)) _ false) as [c3|e];
    cbn [res_bind]; [|reflexivity].
  destruct (digest_str business (PyFloat (MKT_CLOSE b4)) _ false) as [c4|e];
    cbn [res_bind]; [|reflexivity].
  destruct (digest_str business (PyFloat (MKT_CLOSE b5)) _ false) as [c5|e];
    cbn [res_bind]; [|reflexivity].
  destruct (digest_str business (PyFloat (MKT_CLOSE b6)) _ false) as [c6|e];
    cbn [res_bind]; [|reflexivity].
  destruct (digest_str business (PyInt (MKT_VOLUME b1)) _ true) as [v1|e];
    cbn [res_bind]; [|reflexivity].
  destruct (digest_str business (PyInt (MKT_VOLUME b2)) _ true) as [v2|e];
    cbn [res_bind]; [|reflexivity].
  destruct (digest_str business (PyInt (MKT_VOLUME b3)) _ true) as [v3|e];
    cbn [res_bind]; [|reflexivity].
  destruct (digest_str business (PyInt (MKT_VOLUME b4)) _ true) as [v4|e];
    cbn [res_bind]; [|reflexivity].
  destruct (digest_str business (PyInt (MKT_VOLUME b5)) _ true) as [v5|e];
    cbn [res_bind]; [|reflexivity].
  destruct (digest_str business (PyInt (MKT_VOLUME b6)) _ true) as [v6|e];
    cbn [res_bind]; [|reflexivity].
  cbn [fmap list_fmap fst zip zip_with].
  rewrite pivot_melt_six. cbn [res_bind].
  destruct (strftime_fresh d) as (Hlabels & Hsymbol & Hmetric).
  rewrite wide_insert_fresh by done. cbn [res_bind].
  rewrite wide_insert_fresh;
    [|by apply fresh_column; [apply not_eq_sym|]|done].
  cbn [res_bind].
  rewrite reset_index_fresh.
  - reflexivity.
  - apply fresh_column; [done|].
    rewrite bool_decide_eq_false. by apply fresh_column; [apply not_eq_sym|].

Qed.

Lemma gathered_unfold tbl symbol d :
  gathered tbl symbol d
  = [ ("1d", PyFrame (mkFrame schema_keys (resolve tbl symbol (d - 1) 5)));
      ("1m", PyFrame (mkFrame schema_keys (resolve tbl symbol (d - 30) 5)));
      ("3m", PyFrame (mkFrame schema_keys (resolve tbl symbol (d - 90) 5)));
      ("6m", PyFrame (mkFrame schema_keys (resolve tbl symbol (d - 180) 5)));
      ("1y", PyFrame (mkFrame schema_keys (resolve tbl symbol (d - 365) 5)));
      ("3y", PyFrame (mkFrame schema_keys (resolve tbl symbol (d - 1095) 5))) ].
Proof. reflexivity. Qed.

(** The checks pass on six single bars with distinct dates. *)
Lemma strict_checks_six_Ok config b1 b2 b3 b4 b5 b6 :
  NoDup [MKT_DATE b1; MKT_DATE b2; MKT_DATE b3; MKT_DATE b4; MKT_DATE b5;
         MKT_DATE b6] →
  strict_checks config
    [ ("1d", PyFrame (mkFrame schema_keys [b1]));
      ("1m", PyFrame (mkFrame schema_keys [b2]));
      ("3m", PyFrame (mkFrame schema_keys [b3]));
      ("6m", PyFrame (mkFrame schema_keys [b4]));
      ("1y", PyFrame (mkFrame schema_keys [b5]));
      ("3y", PyFrame (mkFrame schema_keys [b6])) ]
  = Ok tt.
Proof.
  intros Hnd. unfold strict_checks.
  cbn [fmap list_fmap snd res_traverse first_date rows res_bind].
  rewrite (remove_dups_NoDup _ Hnd). reflexivity.
Qed.

(** The checks pass only when every frame holds a bar. *)
Lemma strict_checks_six_inv config r1 r2 r3 r4 r5 r6 :
  strict_checks config
    [ ("1d", PyFrame (mkFrame schema_keys r1));
      ("1m", PyFrame (mkFrame schema_keys r2));
      ("3m", PyFrame (mkFrame schema_keys r3));
      ("6m", PyFrame (mkFrame schema_keys r4));
      ("1y", PyFrame (mkFrame schema_keys r5));
      ("3y", PyFrame (mkFrame schema_keys r6)) ]
  = Ok tt →
  r1 ≠ [] ∧ r2 ≠ [] ∧ r3 ≠ [] ∧ r4 ≠ [] ∧ r5 ≠ [] ∧ r6 ≠ [].
Proof.
  unfold strict_checks.
  cbn [fmap list_fmap snd res_traverse first_date rows res_bind].
  destruct r1; [discriminate|]. destruct r2; [discriminate|].
  destruct r3; [discriminate|]. destruct r4; [discriminate|].
  destruct r5; [discriminate|]. destruct r6; [discriminate|].
  done.
Qed.

(** A frame missing among the six makes the date extraction raise
    IndexError, whatever the other frames hold. *)
Lemma strict_checks_six_missing config r1 r2 r3 r4 r5 r6 :
  r1 = [] ∨ r2 = [] ∨ r3 = [] ∨ r4 = [] ∨ r5 = [] ∨ r6 = [] →
  strict_checks config
    [ ("1d", PyFrame (mkFrame schema_keys r1));
      ("1m", PyFrame (mkFrame schema_keys r2));
      ("3m", PyFrame (mkFrame schema_keys r3));
      ("6m", PyFrame (mkFrame schema_keys r4));
      ("1y", PyFrame (mkFrame schema_keys r5));
      ("3y", PyFrame (mkFrame schema_keys r6)) ]
  = Raise IndexError.
Proof.
  unfold strict_checks.
  cbn [fmap list_fmap snd res_traverse first_date rows res_bind].
  destruct r1; [done|]. destruct r2; [done|]. destruct r3; [done|].
  destruct r4; [done|]. destruct r5; [done|]. destruct r6; [done|].
  intros [|[|[|[|[|]]]]]; done.
Qed.

End DigestTable.

Section DigestOutcome.

Variable business : num → string.

Implicit Types (tbl : Table) (rep : Report).

(** The windows of the six offsets are disjoint, so the dates resolved
    run strictly downwards in OffsetSpec order. *)
Lemma resolved_dates_descend tbl symbol d b1 b2 b3 b4 b5 b6 :
  resolve tbl symbol (d - 1) 5 = [b1] →
  resolve tbl symbol (d - 30) 5 = [b2] →
  resolve tbl symbol (d - 90) 5 = [b3] →
  resolve tbl symbol (d - 180) 5 = [b4] →
  resolve tbl symbol (d - 365) 5 = [b5] →
  resolve tbl symbol (d - 1095) 5 = [b6] →
  MKT_DATE b2 < MKT_DATE b1 ∧ MKT_DATE b3 < MKT_DATE b2
  ∧ MKT_DATE b4 < MKT_DATE b3 ∧ MKT_DATE b5 < MKT_DATE b4
  ∧ MKT_DATE b6 < MKT_DATE b5.
Proof.
  intros (_ & _ & _ & ? & _)%resolve_cons (_ & _ & _ & ? & _)%resolve_cons
    (_ & _ & _ & ? & _)%resolve_cons (_ & _ & _ & ? & _)%resolve_cons
    (_ & _ & _ & ? & _)%resolve_cons (_ & _ & _ & ? & _)%resolve_cons.
  lia.
Qed.

Lemma resolve_single tbl symbol target w :
  resolve tbl symbol target w ≠ [] →
  ∃ b, resolve tbl symbol target w = [b].
Proof.
  destruct (resolve tbl symbol target w) as [|b rest] eqn:Hres; [done|].
  apply resolve_cons in Hres as [-> _]. eauto.
Qed.

(** [digest] returns exactly when the as-of bar and a bar in each of the
    six windows exist and every comparison cell can be computed; the
    report is then the layout of those cells. *)
Lemma digest_Ok_inv tbl symbol d rep :
  (digest business symbol d tbl).2 = Ok rep →
  ∃ a bs close volume,
    PyDate.valid d ∧ PyDate.valid (d - 1100)
    ∧ resolve tbl symbol d 0 = [a]
    ∧ Forall2 (λ ld b, resolve tbl symbol ld.2 look_back_default = [b])
        (targets d) bs
    ∧ Forall2 (λ b c, digest_str business (PyFloat (MKT_CLOSE b))
                        (PyFloat (MKT_CLOSE a)) false = Ok c) bs close
    ∧ Forall2 (λ b v, digest_str business (PyInt (MKT_VOLUME b))
                        (PyInt (MKT_VOLUME a)) true = Ok v) bs volume
    ∧ rep = laid_out business symbol d a close volume.
Proof.
  intros Hrun.
  destruct (digest_Ok_valid _ _ _ _ _ Hrun) as [Hd Hlast].
  rewrite (digest_run _ _ _ _ Hd Hlast) in Hrun.
  destruct (resolve tbl symbol d 0) as [|a rest] eqn:Has_of; [done|].
  assert (rest = []) as -> by (by apply resolve_cons in Has_of as [-> _]).
  rewrite gathered_unfold in Hrun.
  destruct (strict_checks _ _) as [[]|e] eqn:Hchk; [|done].
  apply strict_checks_six_inv in Hchk
    as ([b1 H1]%resolve_single & [b2 H2]%resolve_single
        & [b3 H3]%resolve_single & [b4 H4]%resolve_single
        & [b5 H5]%resolve_single & [b6 H6]%resolve_single).
  destruct (resolved_dates_descend _ _ _ _ _ _ _ _ _ H1 H2 H3 H4 H5 H6)
    as (? & ? & ? & ? & ?).
  simpl in Hrun. rewrite H1, H2, H3, H4, H5, H6 in Hrun.
  rewrite digest_table_six in Hrun by done.
  destruct (res_traverse _ _) as [close|e] eqn:Hclose in Hrun; [|done].
  cbn [res_bind] in Hrun.
  destruct (res_traverse _ _) as [volume|e] eqn:Hvolume in Hrun; [|done].
  injection Hrun as <-.
  exists a, [b1; b2; b3; b4; b5; b6], close, volume.
  split; [done|]. split; [done|]. split; [done|]. split; [|split; [|split]].
  - unfold targets, OffsetSpec, look_back_default. simpl.
    repeat constructor; done.
  - by apply res_traverse_Ok_Forall2 in Hclose.
  - by apply res_traverse_Ok_Forall2 in Hvolume.
  - done.
Qed.

Lemma digest_Ok_intro tbl symbol d a bs close volume :
  PyDate.valid d → PyDate.valid (d - 1100) →
  resolve tbl symbol d 0 = [a] →
  Forall2 (λ ld b, resolve tbl symbol ld.2 look_back_default = [b])
    (targets d) bs →
  Forall2 (λ b c, digest_str business (PyFloat (MKT_CLOSE b))
                    (PyFloat (MKT_CLOSE a)) false = Ok c) bs close →
  Forall2 (λ b v, digest_str business (PyInt (MKT_VOLUME b))
                    (PyInt (MKT_VOLUME a)) true = Ok v) bs volume →
  (digest business symbol d tbl).2
  = Ok (laid_out business symbol d a close volume).
Proof.
  intros Hd Hlast Has_of Hbs Hclose Hvolume.
  unfold targets, OffsetSpec, look_back_default in Hbs.
  cbn [fmap list_fmap] in Hbs. change (365 * 3) with 1095 in Hbs.
  apply Forall2_cons_inv_l in Hbs as (b1 & ? & H1 & Hbs & ->).
  apply Forall2_cons_inv_l in Hbs as (b2 & ? & H2 & Hbs & ->).
  apply Forall2_cons_inv_l in Hbs as (b3 & ? & H3 & Hbs & ->).
  apply Forall2_cons_inv_l in Hbs as (b4 & ? & H4 & Hbs & ->).
  apply Forall2_cons_inv_l in Hbs as (b5 & ? & H5 & Hbs & ->).
  apply Forall2_cons_inv_l in Hbs as (b6 & ? & H6 & Hbs & ->).
  apply Forall2_nil_inv_l in Hbs as ->.
  cbn [snd] in H1, H2, H3, H4, H5, H6.
  apply Forall2_res_traverse_Ok in Hclose, Hvolume.
  destruct (resolved_dates_descend _ _ _ _ _ _ _ _ _ H1 H2 H3 H4 H5 H6)
    as (? & ? & ? & ? & ?).
  rewrite (digest_run _ _ _ _ Hd Hlast), Has_of, gathered_unfold.
  rewrite H1, H2, H3, H4, H5, H6.
  rewrite strict_checks_six_Ok; last first.
  { repeat (apply NoDup_cons; split;
            [rewrite ?elem_of_cons, elem_of_nil; lia|]).
    apply NoDup_nil_2. }
  cbn [res_bind]. rewrite digest_table_six by done.
  rewrite Hclose. cbn [res_bind]. rewrite Hvolume. done.
Qed.

End DigestOutcome.

Section Cells.

Variable business : num → string.

Implicit Types (tbl : Table) (rep : Report).





End Cells.

(** ** The scenario, run *)

Lemma digest_store_full :
  (digest Scenario.business_si "ABC" Scenario.as_of Scenario.store_full).2
  = Ok Scenario.report_full.
Proof. vm_compute. reflexivity. Qed.

(** ** The claims about [digest] *)

Section DigestClaims.

Variable business : num → string.

Implicit Types (tbl : Table) (rep : Report).

(** C1, as the code has it. For every symbol and as-of date: whenever
    [digest] returns, the report has exactly 2 rows, CLOSE then VOLUME,
    and exactly len(OffsetSpec) + 3 = 9 columns, the index column METRIC
    coming first; it raises DigestError when the as-of date has no bar;
    and it does return whenever the as-of bar and a bar in each of the six
    windows exist and every comparison cell can be computed. *)
Theorem digest_two_rows_nine_columns tbl symbol d :
  (∀ rep,
     (digest business symbol d tbl).2 = Ok rep →
     length (r_rows rep) = 2%nat
     ∧ head <$> r_rows rep = [Some (Some "CLOSE"); Some (Some "VOLUME")]
     ∧ length (r_columns rep) = (length OffsetSpec + 3)%nat
     ∧ Forall (λ row, length row = length (r_columns rep)) (r_rows rep))
  ∧ (PyDate.valid d → tbl !! (symbol, d) = None →
     (digest business symbol d tbl).2 = Raise DigestError)
  ∧ (∀ a bs close volume,
       PyDate.valid d → PyDate.valid (d - 1100) →
       resolve tbl symbol d 0 = [a] →
       Forall2 (λ ld b, resolve tbl symbol ld.2 look_back_default = [b])
         (targets d) bs →
       Forall2 (λ b c, digest_str business (PyFloat (MKT_CLOSE b))
                         (PyFloat (MKT_CLOSE a)) false = Ok c) bs close →
       Forall2 (λ b v, digest_str business (PyInt (MKT_VOLUME b))
                         (PyInt (MKT_VOLUME a)) true = Ok v) bs volume →
       ∃ rep, (digest business symbol d tbl).2 = Ok rep).
Proof.
  split; [|split].
  - intros rep (a & bs & close & volume & _ & _ & _ & Hbs & Hclose & Hvolume
                & ->)%digest_Ok_inv.
    assert (length bs = 6%nat) as Hlen
      by (by rewrite <- (Forall2_length _ _ _ Hbs)).
    apply Forall2_length in Hclose, Hvolume.
    rewrite Hlen in Hclose, Hvolume.
    destruct close as [|c1 [|c2 [|c3 [|c4 [|c5 [|c6 [|]]]]]]]; try done.
    destruct volume as [|v1 [|v2 [|v3 [|v4 [|v5 [|v6 [|]]]]]]]; try done.
    unfold laid_out. simpl. repeat split; try done.
    repeat constructor.
  - intros Hd Hnone. rewrite digest_as_of_missing; [done..|].
    by rewrite resolve_exact, Hnone.
  - intros a bs close volume Hd Hlast Ha Hbs Hclose Hvolume. eexists.
    by eapply digest_Ok_intro.
Qed.



(** C6. When the as-of date has no bar in the store, [digest] raises
    DigestError having sent the DAO the one query for the as-of date and
    none for any offset. *)
Theorem digest_missing_as_of_stops_before_offsets tbl symbol d :
  PyDate.valid d → tbl !! (symbol, d) = None →
  digest business symbol d tbl
  = ([DaoSelect symbol d d; LogWarning symbol d], Raise DigestError).
Proof.
  intros Hd Hnone. apply digest_as_of_missing; [done|].
  by rewrite resolve_exact, Hnone.
Qed.


(** Whenever the as-of bar exists and one of the six windows holds no
    bar, [digest] raises IndexError. *)
Lemma digest_missing_offset_IndexError tbl symbol d q label offset :
  PyDate.valid d → PyDate.valid (d - 1100) →
  tbl !! (symbol, d) = Some q →
  (label, offset) ∈ OffsetSpec →
  ¬ has_bar_in tbl symbol (d - offset - look_back_default) (d - offset) →
  (digest business symbol d tbl).2 = Raise IndexError.
Proof.
  intros Hd Hlast Hq Hin Hnone%resolve_nil.
  rewrite (digest_run _ _ _ _ Hd Hlast), resolve_exact, Hq, gathered_unfold.
  rewrite strict_checks_six_missing; [done|].
  unfold OffsetSpec, look_back_default in *.
  rewrite !elem_of_cons, elem_of_nil in Hin.
  destruct Hin as [[= -> ->]|[[= -> ->]|[[= -> ->]|[[= -> ->]|[[= -> ->]|
                  [[= -> ->]|[]]]]]]]; tauto.
Qed.

End DigestClaims.

(** ** The claims at the scenario *)

(** C1 as the specification states it fails: over [store_full] the
    digest of 2024-01-02 returns nine columns, neither eight nor
    DigestError. *)
Lemma digest_nine_columns_not_eight :
  ¬ two_by_eight_or_DigestError
      (digest Scenario.business_si "ABC" Scenario.as_of Scenario.store_full).2.
Proof. rewrite digest_store_full. simpl. intros [_ [=]]. Qed.

Lemma digest_two_rows_nine_columns_witness :
  ∃ rep,
    (digest Scenario.business_si "ABC" Scenario.as_of Scenario.store_full).2
    = Ok rep
    ∧ length (r_rows rep) = 2%nat
    ∧ length (r_columns rep) = 9%nat.
Proof.
  exists Scenario.report_full.
  destruct (digest_two_rows_nine_columns Scenario.business_si
              Scenario.store_full "ABC" Scenario.as_of) as (Hshape & _ & _).
  destruct (Hshape _ digest_store_full) as (Hrows & _ & Hcols & _).
  split; [exact digest_store_full|]. split; [exact Hrows|exact Hcols].
Defined.

(** C2 at the scenario of the specification: with the two bars of
    2024-01-01 and 2024-01-02 only, five offsets find no bar; [digest]
    queries all six windows and then raises IndexError, not DigestError. *)
Theorem digest_missing_offsets_raise_IndexError :
  digest Scenario.business_si "ABC" Scenario.as_of Scenario.store_two
  = ([ DaoSelect "ABC" 738887 738887;
       DaoSelect "ABC" 738881 738886;
       DaoSelect "ABC" 738852 738857; LogWarning "ABC" 738857;
       DaoSelect "ABC" 738792 738797; LogWarning "ABC" 738797;
       DaoSelect "ABC" 738702 738707; LogWarning "ABC" 738707;
       DaoSelect "ABC" 738517 738522; LogWarning "ABC" 738522;
       DaoSelect "ABC" 737787 737792; LogWarning "ABC" 737792 ],
     Raise IndexError).
Proof. vm_compute. reflexivity. Qed.





Lemma digest_missing_as_of_witness :
  PyDate.valid (Scenario.as_of + 1)
  ∧ Scenario.store_full !! ("ABC", Scenario.as_of + 1) = None
  ∧ digest Scenario.business_si "ABC" (Scenario.as_of + 1) Scenario.store_full
    = ([DaoSelect "ABC" (Scenario.as_of + 1) (Scenario.as_of + 1);
        LogWarning "ABC" (Scenario.as_of + 1)],
       Raise DigestError).
Proof.
  assert (PyDate.valid (Scenario.as_of + 1)) as Hvalid
    by (vm_compute; split; discriminate).
  assert (Scenario.store_full !! ("ABC", Scenario.as_of + 1) = None) as Hnone
    by (vm_compute; reflexivity).
  split; [exact Hvalid|]. split; [exact Hnone|].
  exact (digest_missing_as_of_stops_before_offsets Scenario.business_si
           Scenario.store_full "ABC" (Scenario.as_of + 1) Hvalid Hnone).
Defined.



(** * Further properties of the store *)

Import Observe.

Section StoreMore.

Implicit Types (tbl : Table) (b : Bar) (df : DataFrame) (k : string * Z).

Lemma last_with_key_cons k b bs :
  last_with_key k (b :: bs)
  = match last_with_key k bs with
    | Some b' => Some b'
    | None => if decide (key_of b = k) then Some b else None
    end.
Proof.
  unfold last_with_key. destruct (decide (key_of b = k)) as [Hk|Hk].
  - rewrite filter_cons_True by done. apply last_cons.
  - rewrite filter_cons_False by done. by destruct (last _).
Qed.

(** What a key holds after a batch of upserts: the quote of the last
    record written under it, or what it held before. *)
Lemma lookup_foldl_upsert tbl bs k :
  foldl upsert tbl bs !! k
  = match last_with_key k bs with
    | Some b => Some (quote_of b)
    | None => tbl !! k
    end.
Proof.
  revert tbl. induction bs as [|b bs IH]; intros tbl; [done|].
  simpl. rewrite IH, last_with_key_cons.
  destruct (last_with_key k bs) as [b'|]; [done|].
  unfold upsert. destruct (decide (key_of b = k)) as [<-|Hk].
  - apply lookup_insert_eq.
  - by apply lookup_insert_ne.
Qed.



(** X2. [insert] is idempotent: writing the same frame a second time
    succeeds and leaves the table as the first write left it. *)
Theorem insert_idempotent tbl df tbl' :
  insert tbl df = Ok tbl' → insert tbl' df = Ok tbl'.
Proof.
  intros [Hcols ->]%insert_Ok_inv. rewrite insert_Ok by done. f_equal.
  apply map_eq. intros k. rewrite !lookup_foldl_upsert.
  by destruct (last_with_key k (rows df)).
Qed.

Lemma insert_idempotent_witness :
  insert ∅ (Scenario.frame Scenario.two_bars) = Ok Scenario.store_two
  ∧ insert Scenario.store_two (Scenario.frame Scenario.two_bars)
    = Ok Scenario.store_two.
Proof.
  assert (insert ∅ (Scenario.frame Scenario.two_bars) = Ok Scenario.store_two)
    as Hins by (vm_compute; reflexivity).
  split; [exact Hins|]. exact (insert_idempotent _ _ _ Hins).
Defined.


(** X4. Two adjoining ranges select, between them, what the range they
    make up selects: the rows are the same up to their order. *)
Theorem select_adjoining_ranges tbl symbol lo mid hi :
  lo - 1 ≤ mid ≤ hi →
  rows (select tbl symbol lo hi)
  ≡ₚ rows (select tbl symbol lo mid) ++ rows (select tbl symbol (mid + 1) hi).
Proof.
  intros Hmid. apply NoDup_Permutation.
  - eapply NoDup_fmap_1. apply NoDup_select_dates.
  - apply NoDup_app. split; [|split].
    + eapply NoDup_fmap_1. apply NoDup_select_dates.
    + intros b Hl%elem_of_select Hr%elem_of_select. lia.
    + eapply NoDup_fmap_1. apply NoDup_select_dates.
  - intros b. rewrite elem_of_app, !elem_of_select.
    destruct (decide (MKT_DATE b ≤ mid)); intuition lia.
Qed.

Lemma select_adjoining_ranges_witness :
  Scenario.as_of - 40 - 1 ≤ Scenario.as_of - 10 ≤ Scenario.as_of
  ∧ rows (select Scenario.store_full "ABC" (Scenario.as_of - 40) Scenario.as_of)
    ≡ₚ rows (select Scenario.store_full "ABC" (Scenario.as_of - 40)
               (Scenario.as_of - 10))
       ++ rows (select Scenario.store_full "ABC" (Scenario.as_of - 10 + 1)
                  Scenario.as_of).
Proof.
  assert (Scenario.as_of - 40 - 1 ≤ Scenario.as_of - 10 ≤ Scenario.as_of)
    as Hmid by (vm_compute; split; discriminate).
  split; [exact Hmid|].
  exact (select_adjoining_ranges Scenario.store_full "ABC" _ _ _ Hmid).
Defined.

End StoreMore.

Section MinMax.

Implicit Types (tbl : Table) (b : Bar) (df : DataFrame).

Lemma foldr_min_least d ds :
  foldr Z.min d ds ∈ d :: ds ∧ ∀ x, x ∈ d :: ds → foldr Z.min d ds ≤ x.
Proof.
  induction ds as [|y ds [Hin Hle]]; simpl.
  - split; [left|]. by intros x ->%list_elem_of_singleton.
  - split.
    + destruct (Z.min_spec y (foldr Z.min d ds)) as [[_ ->]|[_ ->]].
      * right; left.
      * apply elem_of_cons in Hin as [->|Hin]; [left|by do 2 right].
    + intros x [->|[->|Hx]%elem_of_cons]%elem_of_cons.
      * specialize (Hle d ltac:(left)). lia.
      * lia.
      * specialize (Hle x ltac:(by right)). lia.
Qed.

Lemma foldr_max_greatest d ds :
  foldr Z.max d ds ∈ d :: ds ∧ ∀ x, x ∈ d :: ds → x ≤ foldr Z.max d ds.
Proof.
  induction ds as [|y ds [Hin Hle]]; simpl.
  - split; [left|]. by intros x ->%list_elem_of_singleton.
  - split.
    + destruct (Z.max_spec y (foldr Z.max d ds)) as [[_ ->]|[_ ->]].
      * apply elem_of_cons in Hin as [->|Hin]; [left|by do 2 right].
      * right; left.
    + intros x [->|[->|Hx]%elem_of_cons]%elem_of_cons.
      * specialize (Hle d ltac:(left)). lia.
      * lia.
      * specialize (Hle x ltac:(by right)). lia.
Qed.

(** The dates [min_max_dates] aggregates are those under which the
    symbol has a row. *)
Lemma elem_of_symbol_dates tbl symbol k :
  k ∈ (λ kv : string * Z * Quote, kv.1.2)
        <$> filter (λ kv : string * Z * Quote, kv.1.1 = symbol)
              (map_to_list tbl)
  ↔ is_Some (tbl !! (symbol, k)).
Proof.
  rewrite list_elem_of_fmap. split.
  - intros ([[s d] q] & -> & [Hs Hin%elem_of_map_to_list]%list_elem_of_filter).
    simpl in *. subst s. by exists q.
  - intros [q Hq]. exists (symbol, k, q). split; [done|].
    apply list_elem_of_filter. split; [done|]. by apply elem_of_map_to_list.
Qed.

Lemma min_max_dates_cases tbl symbol :
  (min_max_dates tbl symbol = (None, None) ∧ ¬ has_rows tbl symbol)
  ∨ (∃ lo hi,
       min_max_dates tbl symbol = (Some lo, Some hi)
       ∧ is_Some (tbl !! (symbol, lo)) ∧ is_Some (tbl !! (symbol, hi))
       ∧ ∀ k, is_Some (tbl !! (symbol, k)) → lo ≤ k ≤ hi).
Proof.
  unfold min_max_dates.
  pose proof (elem_of_symbol_dates tbl symbol) as Hdates.
  destruct (_ <$> filter _ (map_to_list tbl)) as [|d ds].
  - left. split; [done|]. intros (k & q & Hq).
    by apply (elem_of_nil k), Hdates; exists q.
  - right. eexists _, _. split; [done|].
    destruct (foldr_min_least d ds) as [Hmin Hleast].
    destruct (foldr_max_greatest d ds) as [Hmax Hgreatest].
    split; [by apply Hdates|]. split; [by apply Hdates|].
    intros k Hk%Hdates. split; [by apply Hleast|by apply Hgreatest].
Qed.

(** X5. [min_max_dates] answers (None, None) exactly when the symbol has
    no row; otherwise both dates are dates of stored bars of the symbol,
    the first is the earliest and the second the latest, and it never
    answers with one date and one None. *)
Theorem min_max_dates_earliest_latest tbl symbol :
  match min_max_dates tbl symbol with
  | (None, None) => ¬ has_rows tbl symbol
  | (Some lo, Some hi) =>
      is_Some (tbl !! (symbol, lo)) ∧ is_Some (tbl !! (symbol, hi))
      ∧ lo ≤ hi
      ∧ ∀ k, is_Some (tbl !! (symbol, k)) → lo ≤ k ≤ hi
  | _ => False
  end.
Proof.
  destruct (min_max_dates_cases tbl symbol)
    as [[-> Hnone]|(lo & hi & -> & Hlo & Hhi & Hall)]; [done|].
  repeat split; try done; [|by apply Hall..].
  destruct (Hall lo Hlo). lia.
Qed.

(** X6. A [select] from the earliest to the latest date that
    [min_max_dates] reports returns every stored bar of the symbol. *)
Theorem select_min_max_returns_all tbl symbol lo hi :
  min_max_dates tbl symbol = (Some lo, Some hi) →
  ∀ b, b ∈ rows (select tbl symbol lo hi)
       ↔ tbl !! key_of b = Some (quote_of b) ∧ MKT_SYMBOL b = symbol.
Proof.
  intros Hmm b. rewrite elem_of_select.
  destruct (min_max_dates_cases tbl symbol)
    as [[Hnone _]|(lo' & hi' & Heq & _ & _ & Hall)]; [congruence|].
  rewrite Hmm in Heq. injection Heq as <- <-.
  split; [tauto|]. intros [Hb Hs]. split; [done|]. split; [done|].
  apply Hall. exists (quote_of b). unfold key_of in Hb. by rewrite Hs in Hb.
Qed.

Lemma select_min_max_returns_all_witness :
  min_max_dates Scenario.store_full "ABC"
  = (Some (Scenario.as_of - 1096), Some Scenario.as_of)
  ∧ length (rows (select Scenario.store_full "ABC" (Scenario.as_of - 1096)
                    Scenario.as_of)) = 7%nat
  ∧ Scenario.bar (Scenario.as_of - 180) 80 1200000
    ∈ rows (select Scenario.store_full "ABC" (Scenario.as_of - 1096)
              Scenario.as_of).
Proof.
  assert (min_max_dates Scenario.store_full "ABC"
          = (Some (Scenario.as_of - 1096), Some Scenario.as_of)) as Hmm
    by (vm_compute; reflexivity).
  split; [exact Hmm|]. split; [vm_compute; reflexivity|].
  apply (select_min_max_returns_all _ _ _ _ Hmm).
  split; vm_compute; reflexivity.
Defined.

(** X7. After a successful [insert], [min_max_dates] of the symbol of
    any record of the frame reports two dates, and the record's date
    lies between them. *)
Theorem min_max_dates_after_insert tbl df tbl' b :
  insert tbl df = Ok tbl' → b ∈ rows df →
  ∃ lo hi,
    min_max_dates tbl' (MKT_SYMBOL b) = (Some lo, Some hi)
    ∧ lo ≤ MKT_DATE b ≤ hi.
Proof.
  intros [_ ->]%insert_Ok_inv Hb.
  assert (is_Some (foldl upsert tbl (rows df) !! key_of b)) as Hkey.
  { rewrite lookup_foldl_upsert. unfold last_with_key.
    destruct (last (filter (λ b', key_of b' = key_of b) (rows df)))
      as [b'|] eqn:Hlast; [done|].
    apply last_None in Hlast.
    assert (b ∈ filter (λ b', key_of b' = key_of b) (rows df)) as Hin
      by (by apply list_elem_of_filter).
    rewrite Hlast in Hin. by apply elem_of_nil in Hin. }
  destruct (min_max_dates_cases (foldl upsert tbl (rows df)) (MKT_SYMBOL b))
    as [[_ Hnone]|(lo & hi & Heq & _ & _ & Hall)].
  - destruct Hnone. destruct Hkey as [q Hq]. by exists (MKT_DATE b), q.
  - exists lo, hi. split; [done|]. by apply Hall.
Qed.

Lemma min_max_dates_after_insert_witness :
  insert ∅ (Scenario.frame Scenario.two_bars) = Ok Scenario.store_two
  ∧ Scenario.bar (Scenario.as_of - 1) 90 500000 ∈ Scenario.two_bars
  ∧ ∃ lo hi,
      min_max_dates Scenario.store_two "ABC" = (Some lo, Some hi)
      ∧ lo ≤ Scenario.as_of - 1 ≤ hi.
Proof.
  assert (insert ∅ (Scenario.frame Scenario.two_bars) = Ok Scenario.store_two)
    as Hins by (vm_compute; reflexivity).
  assert (Scenario.bar (Scenario.as_of - 1) 90 500000 ∈ Scenario.two_bars)
    as Hin by (right; left).
  split; [exact Hins|]. split; [exact Hin|].
  exact (min_max_dates_after_insert _ _ _ _ Hins Hin).
Defined.

End MinMax.

(** * Further properties of the resolver *)

Section ResolverMore.

Implicit Types (tbl : Table) (b : Bar).

Lemma bar_eq b1 b2 :
  key_of b1 = key_of b2 → quote_of b1 = quote_of b2 → b1 = b2.
Proof. destruct b1, b2. intros [= -> ->] [= -> -> -> -> ->]. done. Qed.

(** The newest bar of a window is what the resolver settles on. *)
Lemma resolve_newest tbl symbol target w b :
  tbl !! key_of b = Some (quote_of b) → MKT_SYMBOL b = symbol →
  target - w ≤ MKT_DATE b ≤ target →
  (∀ k q, tbl !! (symbol, k) = Some q → target - w ≤ k ≤ target →
          k ≤ MKT_DATE b) →
  resolve tbl symbol target w = [b].
Proof.
  intros Hb Hs Hrange Hmax.
  destruct (resolve tbl symbol target w) as [|b' rest] eqn:Hres.
  { apply resolve_nil in Hres. destruct Hres.
    exists (MKT_DATE b), (quote_of b). unfold key_of in Hb.
    by rewrite Hs in Hb. }
  apply resolve_cons in Hres as (-> & Hb' & Hs' & Hrange' & Hmax').
  assert (key_of b' = key_of b) as Hkey.
  { unfold key_of in *. rewrite Hs, Hs' in *. f_equal.
    apply Z.le_antisymm; [by eapply Hmax|by eapply Hmax']. }
  f_equal. apply bar_eq; [done|]. rewrite Hkey in Hb'. congruence.
Qed.

(** X8. A longer look-back never changes a bar already found: when
    [maybe_get_data] finds a bar with some look-back, it returns the same
    one-row frame with every longer look-back. *)
Theorem maybe_get_data_longer_look_back tbl symbol target w w' b :
  PyDate.valid (target - w) → PyDate.valid (target - w') → w ≤ w' →
  (maybe_get_data symbol target w tbl).2
  = Ok (PyFrame (mkFrame schema_keys [b])) →
  (maybe_get_data symbol target w' tbl).2
  = Ok (PyFrame (mkFrame schema_keys [b])).
Proof.
  intros Hv Hv' Hle.
  rewrite (maybe_get_data_valid _ _ _ _ Hv), (maybe_get_data_valid _ _ _ _ Hv').
  simpl. intros [= Hres]. do 3 f_equal.
  apply resolve_cons in Hres as (_ & Hb & Hs & Hrange & Hmax).
  apply resolve_newest; [done|done|lia|].
  intros k q Hk Hkr.
  destruct (decide (target - w ≤ k)) as [Hin|Hout]; [eapply Hmax; [done|lia]|lia].
Qed.

Lemma maybe_get_data_longer_look_back_witness :
  PyDate.valid (Scenario.as_of - 30 - 5)
  ∧ PyDate.valid (Scenario.as_of - 30 - 80)
  ∧ (maybe_get_data "ABC" (Scenario.as_of - 30) 80 Scenario.store_full).2
    = Ok (PyFrame (mkFrame schema_keys
                     [Scenario.bar (Scenario.as_of - 32) 95 800000])).
Proof.
  assert (PyDate.valid (Scenario.as_of - 30 - 5)) as Hv
    by (vm_compute; split; discriminate).
  assert (PyDate.valid (Scenario.as_of - 30 - 80)) as Hv'
    by (vm_compute; split; discriminate).
  split; [exact Hv|]. split; [exact Hv'|].
  apply (maybe_get_data_longer_look_back Scenario.store_full "ABC"
           (Scenario.as_of - 30) 5 80 _ Hv Hv'); [lia|].
  vm_compute. reflexivity.
Defined.



End ResolverMore.

(** * Further properties of the digest *)

Section DigestFailures.

Variable business : num → string.

Implicit Types (tbl : Table) (b : Bar) (rep : Report).

Lemma res_traverse_Raise_inv {A B} (f : A → Res B) l e :
  res_traverse f l = Raise e → ∃ a, a ∈ l ∧ f a = Raise e.
Proof.
  induction l as [|a l IH]; simpl; [done|].
  destruct (f a) as [y|e'] eqn:Hfa; simpl.
  - destruct (res_traverse f l) as [ys|e'']; simpl; [done|].
    intros [= ->]. destruct IH as (a' & Hin & Hfa'); [done|].
    exists a'. split; [by right|done].
  - intros [= ->]. exists a. split; [left|done].
Qed.

Lemma for_each_Raise_inv {A B} (f : A → Svc B) (l : list A) tbl trace e :
  for_each f l tbl = (trace, Raise e) →
  ∃ a t, a ∈ l ∧ f a tbl = (t, Raise e).
Proof.
  revert trace. induction l as [|a l IH]; intros trace; simpl; [done|].
  unfold bind at 1. destruct (f a tbl) as [t1 [y|e']] eqn:Hfa.
  - unfold bind at 1.
    destruct (for_each f l tbl) as [t2 [ys|e'']] eqn:Hrest; [done|].
    intros [= _ ->]. destruct (IH _ eq_refl) as (a' & t & Hin & Hfa').
    exists a', t. split; [by right|done].
  - intros [= _ ->]. exists a, t1. split; [left|done].
Qed.

Lemma maybe_get_data_Raise_inv tbl symbol d w trace e :
  maybe_get_data symbol d w tbl = (trace, Raise e) → e = OverflowError.
Proof.
  destruct (decide (PyDate.valid (d - w))) as [Hvalid|Hnot].
  - by rewrite (maybe_get_data_valid _ _ _ _ Hvalid).
  - rewrite (maybe_get_data_overflow _ _ _ _ Hnot). by intros [= _ <-].
Qed.

Lemma digest_config_Raise_inv d e :
  digest_config d = Raise e → e = OverflowError.
Proof.
  intros (lo & _ & Hlo)%res_traverse_Raise_inv.
  destruct (decide (PyDate.valid (d - lo.2))) as [Hvalid|Hnot].
  - by rewrite (sub_days_valid _ _ Hvalid) in Hlo.
  - rewrite (sub_days_overflow _ _ Hnot) in Hlo. by injection Hlo.
Qed.

Lemma py_int_Raise_inv x e :
  PyNum.py_int x = Raise e → e = OverflowError ∨ e = ValueError.
Proof.
  unfold PyNum.py_int. destruct (Prim2SF x); intros [=]; auto.
Qed.

(** What [digest_str] can raise comes from the division or from [int]. *)
Lemma digest_str_Raise_inv value compare_value ballpark_value e :
  digest_str business value compare_value ballpark_value = Raise e →
  e = ZeroDivisionError ∨ e = OverflowError ∨ e = ValueError.
Proof.
  unfold digest_str, pct_of.
  destruct (num_truediv _ _) as [q|e'] eqn:Hdiv; simpl.
  - destruct (PyNum.py_int _) as [pct|e'] eqn:Hint; simpl; [done|].
    intros [= ->]. apply py_int_Raise_inv in Hint. tauto.
  - intros [= ->]. left.
    unfold num_truediv, PyNum.int_truediv, PyNum.float_truediv in Hdiv.
    repeat case_match; congruence.
Qed.

(** Every way a digest can end, by what the store holds. *)
Lemma digest_cases tbl symbol d :
  (¬ PyDate.valid d
   ∧ (digest business symbol d tbl).2 = Raise OverflowError)
  ∨ (PyDate.valid d ∧ tbl !! (symbol, d) = None
     ∧ (digest business symbol d tbl).2 = Raise DigestError)
  ∨ (PyDate.valid d ∧ is_Some (tbl !! (symbol, d))
     ∧ ¬ PyDate.valid (d - 1100)
     ∧ (digest business symbol d tbl).2 = Raise OverflowError)
  ∨ (PyDate.valid d ∧ is_Some (tbl !! (symbol, d))
     ∧ PyDate.valid (d - 1100)
     ∧ (∃ label offset,
          (label, offset) ∈ OffsetSpec
          ∧ ¬ has_bar_in tbl symbol (d - offset - look_back_default)
                (d - offset))
     ∧ (digest business symbol d tbl).2 = Raise IndexError)
  ∨ (PyDate.valid d ∧ is_Some (tbl !! (symbol, d))
     ∧ PyDate.valid (d - 1100)
     ∧ (∀ label offset,
          (label, offset) ∈ OffsetSpec →
          has_bar_in tbl symbol (d - offset - look_back_default) (d - offset))
     ∧ ((∃ rep, (digest business symbol d tbl).2 = Ok rep)
        ∨ ∃ e, (digest business symbol d tbl).2 = Raise e
               ∧ (e = ZeroDivisionError ∨ e = OverflowError
                  ∨ e = ValueError))).
Proof.
  destruct (decide (PyDate.valid d)) as [Hd|Hnot]; last first.
  { left. split; [done|]. unfold digest. erewrite bind_Raise; [done|].
    apply maybe_get_data_overflow. by rewrite Z.sub_0_r. }
  right. destruct (tbl !! (symbol, d)) as [q|] eqn:Hq; last first.
  { left. split; [done|]. split; [done|].
    rewrite digest_as_of_missing; [done..|]. by rewrite resolve_exact, Hq. }
  right. destruct (decide (PyDate.valid (d - 1100))) as [Hlast|Hnot].
  - right.
    assert (∀ label offset found,
              (label, offset) ∈ OffsetSpec →
              resolve tbl symbol (d - offset) 5 = found →
              found = [] →
              PyDate.valid d ∧ is_Some (Some q) ∧ PyDate.valid (d - 1100)
              ∧ (∃ label offset,
                   (label, offset) ∈ OffsetSpec
                   ∧ ¬ has_bar_in tbl symbol (d - offset - look_back_default)
                         (d - offset))) as Hmissing.
    { intros label offset found Hin Hres ->.
      split; [done|]. split; [done|]. split; [done|].
      exists label, offset. split; [done|]. by apply resolve_nil. }
    rewrite (digest_run _ _ _ _ Hd Hlast), resolve_exact, Hq, gathered_unfold.
    unfold OffsetSpec in *.
    destruct (resolve tbl symbol (d - 1) 5) as [|b1 r1] eqn:H1.
    { left. destruct (Hmissing "1d" 1 [] ltac:(set_solver) H1 eq_refl)
        as (? & ? & ? & ?).
      rewrite strict_checks_six_missing; [done|].
      repeat (first [by left|right]); done. }
    destruct (resolve tbl symbol (d - 30) 5) as [|b2 r2] eqn:H2.
    { left. destruct (Hmissing "1m" 30 [] ltac:(set_solver) H2 eq_refl)
        as (? & ? & ? & ?).
      rewrite strict_checks_six_missing; [done|].
      repeat (first [by left|right]); done. }
    destruct (resolve tbl symbol (d - 90) 5) as [|b3 r3] eqn:H3.
    { left. destruct (Hmissing "3m" 90 [] ltac:(set_solver) H3 eq_refl)
        as (? & ? & ? & ?).
      rewrite strict_checks_six_missing; [done|].
      repeat (first [by left|right]); done. }
    destruct (resolve tbl symbol (d - 180) 5) as [|b4 r4] eqn:H4.
    { left. destruct (Hmissing "6m" 180 [] ltac:(set_solver) H4 eq_refl)
        as (? & ? & ? & ?).
      rewrite strict_checks_six_missing; [done|].
      repeat (first [by left|right]); done. }
    destruct (resolve tbl symbol (d - 365) 5) as [|b5 r5] eqn:H5.
    { left. destruct (Hmissing "1y" 365 [] ltac:(set_solver) H5 eq_refl)
        as (? & ? & ? & ?).
      rewrite strict_checks_six_missing; [done|].
      repeat (first [by left|right]); done. }
    destruct (resolve tbl symbol (d - 1095) 5) as [|b6 r6] eqn:H6.
    { left. destruct (Hmissing "3y" 1095 [] ltac:(set_solver) H6 eq_refl)
        as (? & ? & ? & ?).
      rewrite strict_checks_six_missing; [done|].
      repeat (first [by left|right]); done. }
    right. clear Hmissing.
    pose proof (resolve_cons _ _ _ _ _ _ H1) as (-> & Hb1 & Hs1 & Hr1 & _).
    pose proof (resolve_cons _ _ _ _ _ _ H2) as (-> & Hb2 & Hs2 & Hr2 & _).
    pose proof (resolve_cons _ _ _ _ _ _ H3) as (-> & Hb3 & Hs3 & Hr3 & _).
    pose proof (resolve_cons _ _ _ _ _ _ H4) as (-> & Hb4 & Hs4 & Hr4 & _).
    pose proof (resolve_cons _ _ _ _ _ _ H5) as (-> & Hb5 & Hs5 & Hr5 & _).
    pose proof (resolve_cons _ _ _ _ _ _ H6) as (-> & Hb6 & Hs6 & Hr6 & _).
    split; [done|]. split; [done|]. split; [done|]. split.
    { intros label offset Hin. unfold look_back_default.
      unfold key_of in *.
      rewrite !elem_of_cons, elem_of_nil in Hin.
      destruct Hin as [[= -> ->]|[[= -> ->]|[[= -> ->]|[[= -> ->]|
                      [[= -> ->]|[[= -> ->]|[]]]]]]].
      - exists (MKT_DATE b1), (quote_of b1). by rewrite <- Hs1.
      - exists (MKT_DATE b2), (quote_of b2). by rewrite <- Hs2.
      - exists (MKT_DATE b3), (quote_of b3). by rewrite <- Hs3.
      - exists (MKT_DATE b4), (quote_of b4). by rewrite <- Hs4.
      - exists (MKT_DATE b5), (quote_of b5). by rewrite <- Hs5.
      - exists (MKT_DATE b6), (quote_of b6). by rewrite <- Hs6. }
    rewrite strict_checks_six_Ok; last first.
    { repeat (apply NoDup_cons; split;
              [rewrite ?elem_of_cons, elem_of_nil; lia|]).
      apply NoDup_nil_2. }
    cbn [res_bind]. rewrite digest_table_six by lia.
    destruct (res_traverse _ [b1; b2; b3; b4; b5; b6]) as [close|e]
      eqn:Hclose; cbn [res_bind]; last first.
    { right. exists e. split; [done|].
      apply res_traverse_Raise_inv in Hclose as (b & _ & Hstr).
      by apply digest_str_Raise_inv in Hstr. }
    match goal with
    | |- context [res_bind (res_traverse ?f ?l) _] =>
        destruct (res_traverse f l) as [volume|e] eqn:Hvolume
    end; cbn [res_bind]; last first.
    { right. exists e. split; [done|].
      apply res_traverse_Raise_inv in Hvolume as (b & _ & Hstr).
      by apply digest_str_Raise_inv in Hstr. }
    left. by eexists.
  - left. split; [done|]. split; [done|]. split; [done|].
    destruct (digest business symbol d tbl) as [trace [rep|e]] eqn:Hrun.
    { destruct Hnot. eapply digest_Ok_valid. by rewrite Hrun. }
    simpl. f_equal. unfold digest in Hrun.
    erewrite bind_Ok in Hrun
      by (apply maybe_get_data_valid, valid_sub_0, Hd).
    rewrite resolve_exact, Hq, empty_frame_cons in Hrun.
    destruct (digest_config d) as [config|e'] eqn:Hcfg; last first.
    { erewrite bind_Raise in Hrun by reflexivity.
      apply digest_config_Raise_inv in Hcfg. by injection Hrun as _ <-. }
    erewrite bind_Ok in Hrun by reflexivity.
    apply digest_config_Ok_inv in Hcfg as (-> & _ & _).
    match type of Hrun with
    | context [bind (for_each ?f ?l) _ _] =>
        destruct (for_each f l tbl) as [t [data|e']] eqn:Hgather
    end.
    + destruct Hnot. apply gathered_windows_valid in Hgather.
      assert (("3y", d - 1095) ∈ targets d) as Hin
        by (unfold targets, OffsetSpec; set_solver).
      apply (proj1 (Forall_forall _ _) Hgather) in Hin.
      unfold look_back_default in Hin. simpl in Hin.
      by replace (d - 1100) with (d - 1095 - 5) by lia.
    + erewrite bind_Raise in Hrun by exact Hgather.
      apply for_each_Raise_inv in Hgather as (ld & t' & _ & Hld).
      unfold bind in Hld.
      destruct (maybe_get_data symbol ld.2 look_back_default tbl)
        as [t1 [v|e'']] eqn:Hget; [done|].
      apply maybe_get_data_Raise_inv in Hget.
      simpl in Hrun. injection Hrun as _ <-. by injection Hld as _ <-.
Qed.

(** [digest] raises DigestError for one reason only. *)
Lemma digest_raises_DigestError tbl symbol d :
  (digest business symbol d tbl).2 = Raise DigestError
  ↔ PyDate.valid d ∧ tbl !! (symbol, d) = None.
Proof.
  destruct (digest_cases tbl symbol d)
    as [[Hd Hr]|[(Hd & Hq & Hr)|[(Hd & Hq & Hl & Hr)|[(Hd & Hq & Hl & Hw & Hr)
        |(Hd & Hq & Hl & Hw & [[rep Hr]|(e & Hr & He)])]]]];
    rewrite Hr; (split; [|intros [Hd' Hq']]); try done;
    try (rewrite Hq' in Hq; by destruct Hq as [? [=]]).
  intros [= ->]. by destruct He as [|[|]].
Qed.

(** X10. [digest] raises DigestError exactly when the as-of date is a
    date of the calendar on which the symbol has no bar. Whatever the six
    offset windows hold, neither of the two checks on the gathered frames
    makes it raise DigestError. *)
Theorem digest_DigestError_iff tbl symbol d :
  (digest business symbol d tbl).2 = Raise DigestError
  ↔ PyDate.valid d ∧ tbl !! (symbol, d) = None.
Proof. apply digest_raises_DigestError. Qed.

(** X11. [digest] raises IndexError exactly when the symbol has a bar on
    the as-of date, every window starts on a date of the calendar, and the
    window of at least one offset holds no bar of the symbol. *)
Theorem digest_IndexError_iff tbl symbol d :
  (digest business symbol d tbl).2 = Raise IndexError
  ↔ PyDate.valid d ∧ is_Some (tbl !! (symbol, d)) ∧ PyDate.valid (d - 1100)
    ∧ ∃ label offset,
        (label, offset) ∈ OffsetSpec
        ∧ ¬ has_bar_in tbl symbol (d - offset - look_back_default)
              (d - offset).
Proof.
  destruct (digest_cases tbl symbol d)
    as [[Hd Hr]|[(Hd & Hq & Hr)|[(Hd & Hq & Hl & Hr)|[(Hd & Hq & Hl & Hw & Hr)
        |(Hd & Hq & Hl & Hw & Hr)]]]].
  - rewrite Hr. split; [done|]. by intros [? _].
  - rewrite Hr. split; [done|]. intros (_ & Hq' & _).
    rewrite Hq in Hq'. by destruct Hq' as [? [=]].
  - rewrite Hr. split; [done|]. by intros (_ & _ & ? & _).
  - by rewrite Hr.
  - split.
    + destruct Hr as [[rep ->]|(e & -> & He)]; [done|].
      intros [= ->]. by destruct He as [|[|]].
    + intros (_ & _ & _ & label & offset & Hin & Hnone).
      destruct Hnone. by eapply Hw.
Qed.

End DigestFailures.

Section DigestLocality.

Variable business : num → string.

Implicit Types (tbl : Table) (b : Bar).

(** The resolver reads the symbol's bars of the window and nothing
    else. *)
Lemma resolve_agree tbl1 tbl2 symbol target w :
  (∀ k, target - w ≤ k ≤ target →
        tbl1 !! (symbol, k) = tbl2 !! (symbol, k)) →
  resolve tbl1 symbol target w = resolve tbl2 symbol target w.
Proof.
  intros Hagree.
  destruct (resolve tbl1 symbol target w) as [|b rest] eqn:H1; symmetry.
  - apply resolve_nil. apply resolve_nil in H1.
    intros (k & q & Hq & Hk). apply H1. exists k, q. by rewrite Hagree.
  - apply resolve_cons in H1 as (-> & Hb & Hs & Hr & Hmax).
    apply resolve_newest; [|done|done|].
    + unfold key_of in *. rewrite Hs in *. by rewrite <- Hagree.
    + intros k q Hq Hk. apply (Hmax k q); [|done]. by rewrite Hagree.
Qed.

Lemma maybe_get_data_agree tbl1 tbl2 symbol target w :
  (∀ k, target - w ≤ k ≤ target →
        tbl1 !! (symbol, k) = tbl2 !! (symbol, k)) →
  maybe_get_data symbol target w tbl1 = maybe_get_data symbol target w tbl2.
Proof.
  intros Hagree. destruct (decide (PyDate.valid (target - w))) as [Hv|Hn].
  - rewrite !(maybe_get_data_valid _ _ _ _ Hv).
    by rewrite (resolve_agree _ _ _ _ _ Hagree).
  - by rewrite !(maybe_get_data_overflow _ _ _ _ Hn).
Qed.

Lemma bind_agree {A B} (m : Svc A) (k : A → Svc B) tbl1 tbl2 :
  m tbl1 = m tbl2 →
  (∀ t a, m tbl2 = (t, Ok a) → k a tbl1 = k a tbl2) →
  bind m k tbl1 = bind m k tbl2.
Proof.
  intros Hm Hk. unfold bind. rewrite Hm.
  destruct (m tbl2) as [t [a|e]]; [|done]. by rewrite (Hk t a).
Qed.

Lemma for_each_agree {A B} (f : A → Svc B) (l : list A) tbl1 tbl2 :
  (∀ a, a ∈ l → f a tbl1 = f a tbl2) →
  for_each f l tbl1 = for_each f l tbl2.
Proof.
  induction l as [|a l IH]; intros Hf; simpl; [done|].
  apply bind_agree; [apply Hf; left|]. intros _ y _.
  apply bind_agree; [|done]. apply IH. intros a' Hin. apply Hf. by right.
Qed.

Lemma targets_range d label target :
  (label, target) ∈ targets d → d - 1095 ≤ target ≤ d - 1.
Proof.
  unfold targets, OffsetSpec. cbn [fmap list_fmap fst snd].
  rewrite !elem_of_cons, elem_of_nil.
  intros [[= _ ->]|[[= _ ->]|[[= _ ->]|[[= _ ->]|[[= _ ->]|[[= _ ->]|[]]]]]]];
    lia.
Qed.

(** X12. A digest reads only the symbol's bars of the 1100 days up to
    the as-of date: over two stores that hold the same bars of the symbol
    on those dates, whatever else they hold, [digest] sends the same
    queries, logs the same records and ends the same way. *)
Theorem digest_reads_only_recent_bars tbl1 tbl2 symbol d :
  (∀ k, d - 1100 ≤ k ≤ d → tbl1 !! (symbol, k) = tbl2 !! (symbol, k)) →
  digest business symbol d tbl1 = digest business symbol d tbl2.
Proof.
  intros Hagree. unfold digest.
  apply bind_agree.
  { apply maybe_get_data_agree. intros k Hk. apply Hagree. lia. }
  intros _ [|as_of_data] _; [done|].
  destruct (empty as_of_data); [done|].
  apply bind_agree; [done|].
  intros t config [= _ (-> & _ & _)%digest_config_Ok_inv].
  apply bind_agree; [|done].
  apply for_each_agree. intros [label target] Hin%targets_range.
  apply bind_agree; [|done].
  apply maybe_get_data_agree. intros k Hk. apply Hagree.
  unfold look_back_default in Hk. simpl in Hk. lia.
Qed.

End DigestLocality.

Lemma digest_reads_only_recent_bars_witness :
  digest Scenario.business_si "ABC" Scenario.as_of Scenario.store_full
  = digest Scenario.business_si "ABC" Scenario.as_of
      (upsert (upsert Scenario.store_full
                 (mkBar "XYZ" Scenario.as_of 7 7 7 7 0))
         (Scenario.bar (Scenario.as_of - 2000) 1 1)).
Proof.
  apply digest_reads_only_recent_bars. intros k Hk. unfold upsert.
  rewrite !lookup_insert_ne; [done|..].
  - unfold key_of. simpl. intros [=].
  - unfold key_of, Scenario.bar, Scenario.as_of in *. simpl. intros [= ?]. lia.
Defined.

Section DigestQueries.

Variable business : num → string.

Implicit Types (tbl : Table) (trace : list Event).

Lemma queries_app trace1 trace2 :
  queries (trace1 ++ trace2) = queries trace1 ++ queries trace2.
Proof. apply omap_app. Qed.

Lemma queries_resolve_events symbol target found :
  queries (resolve_events symbol target found) = [].
Proof.
  unfold resolve_events. destruct found as [|b ?]; [done|].
  by case_bool_decide.
Qed.

(** The queries of the gathering, target by target: it stops at the
    first target whose window starts outside the calendar. *)
Lemma gather_cons_queries tbl symbol (ld : string * Z) config :
  queries
    (for_each
       (λ ld : string * Z,
          let! v := maybe_get_data symbol ld.2 look_back_default in
          ret (ld.1, v))
       (ld :: config) tbl).1
  = if decide (PyDate.valid (ld.2 - look_back_default))
    then (symbol, ld.2 - look_back_default, ld.2)
           :: queries
                (for_each
                   (λ ld : string * Z,
                      let! v := maybe_get_data symbol ld.2 look_back_default in
                      ret (ld.1, v))
                   config tbl).1
    else [].
Proof.
  cbn [for_each].
  destruct (decide (PyDate.valid (ld.2 - look_back_default))) as [Hv|Hn].
  - erewrite bind_Ok; last first.
    { erewrite bind_Ok by (by apply maybe_get_data_valid). reflexivity. }
    cbn [fst ret]. rewrite app_nil_r.
    rewrite <- app_comm_cons.
    change (queries (DaoSelect symbol ?lo ?hi :: ?t))
      with ((symbol, lo, hi) :: queries t).
    rewrite queries_app, queries_resolve_events. cbn [app]. f_equal.
    match goal with
    | |- context [bind (for_each ?f ?l) ?k tbl] =>
        destruct (for_each f l tbl) as [t [data|e]] eqn:Hrest
    end.
    + erewrite bind_Ok by exact Hrest. cbn [fst ret]. by rewrite app_nil_r.
    + by erewrite bind_Raise by exact Hrest.
  - erewrite bind_Raise; last first.
    { erewrite bind_Raise by (by apply maybe_get_data_overflow). reflexivity. }
    done.
Qed.

Lemma gather_queries_prefix tbl symbol (config : list (string * Z)) :
  queries
    (for_each
       (λ ld : string * Z,
          let! v := maybe_get_data symbol ld.2 look_back_default in
          ret (ld.1, v))
       config tbl).1
  `prefix_of` (λ ld : string * Z, (symbol, ld.2 - look_back_default, ld.2))
                <$> config.
Proof.
  induction config as [|ld config IH]; [done|].
  rewrite gather_cons_queries. cbn [fmap list_fmap].
  destruct (decide _); [by apply prefix_cons|apply prefix_nil].
Qed.

Lemma gather_queries_all tbl symbol (config : list (string * Z)) :
  Forall (λ ld : string * Z, PyDate.valid (ld.2 - look_back_default)) config →
  queries
    (for_each
       (λ ld : string * Z,
          let! v := maybe_get_data symbol ld.2 look_back_default in
          ret (ld.1, v))
       config tbl).1
  = (λ ld : string * Z, (symbol, ld.2 - look_back_default, ld.2)) <$> config.
Proof.
  induction 1 as [|ld config Hv _ IH]; [done|].
  rewrite gather_cons_queries, decide_True by done.
  cbn [fmap list_fmap]. by rewrite IH.
Qed.

(** The queries of a digest: the as-of day, then those of the
    gathering. *)
Lemma digest_queries_unfold tbl symbol d :
  queries (digest business symbol d tbl).1
  = if decide (PyDate.valid d)
    then (symbol, d, d)
           :: match resolve tbl symbol d 0, digest_config d with
              | _ :: _, Ok config =>
                  queries
                    (for_each
                       (λ ld : string * Z,
                          let! v := maybe_get_data symbol ld.2
                                      look_back_default in
                          ret (ld.1, v))
                       config tbl).1
              | _, _ => []
              end
    else [].
Proof.
  unfold digest.
  destruct (decide (PyDate.valid d)) as [Hd|Hnot]; last first.
  { erewrite bind_Raise; last first.
    { apply maybe_get_data_overflow. by rewrite Z.sub_0_r. }
    done. }
  erewrite bind_Ok by (apply maybe_get_data_valid, valid_sub_0, Hd).
  cbn [fst]. rewrite Z.sub_0_r, <- app_comm_cons.
  change (queries (DaoSelect symbol ?lo ?hi :: ?t))
    with ((symbol, lo, hi) :: queries t).
  rewrite queries_app, queries_resolve_events. cbn [app]. f_equal.
  destruct (resolve tbl symbol d 0) as [|a rest].
  { by rewrite empty_frame_nil. }
  rewrite empty_frame_cons.
  destruct (digest_config d) as [config|e] eqn:Hcfg; last first.
  { by erewrite bind_Raise by reflexivity. }
  erewrite bind_Ok by reflexivity. cbn [fst app].
  match goal with
  | |- context [bind (for_each ?f ?l) _ tbl] =>
      destruct (for_each f l tbl) as [t [data|e]] eqn:Hrun
  end.
  - erewrite bind_Ok by exact Hrun. cbn [fst].
    destruct (strict_checks config data) as [[]|e] eqn:Hchecks.
    + erewrite bind_Ok by reflexivity.
      cbn [fst lift]. by rewrite !app_nil_r.
    + erewrite bind_Raise by reflexivity.
      by rewrite app_nil_r.
  - by erewrite bind_Raise by exact Hrun.
Qed.

Lemma digest_ranges_targets symbol d :
  digest_ranges symbol d
  = (symbol, d, d)
      :: ((λ ld : string * Z, (symbol, ld.2 - look_back_default, ld.2))
            <$> targets d).
Proof. reflexivity. Qed.

(** X13. Whatever the store holds and however it ends, [digest] asks the
    DAO only for bars of its own symbol, at most seven times, and in a
    fixed order: the as-of day alone, then the window of each offset as
    OffsetSpec lists them. The ranges it asks for are always a leading
    part of that list. *)
Theorem digest_queries_prefix tbl symbol d :
  queries (digest business symbol d tbl).1 `prefix_of` digest_ranges symbol d.
Proof.
  rewrite digest_queries_unfold, digest_ranges_targets.
  destruct (decide _); [|apply prefix_nil]. apply prefix_cons.
  destruct (resolve tbl symbol d 0) as [|a rest]; [apply prefix_nil|].
  destruct (digest_config d) as [config|e] eqn:Hcfg; [|apply prefix_nil].
  apply digest_config_Ok_inv in Hcfg as (-> & _ & _).
  apply gather_queries_prefix.
Qed.

(** X14. When the symbol has a bar on the as-of date and every window
    starts on a date of the calendar, [digest] asks the DAO for all seven
    ranges, also when a window early in the list holds no bar: it gathers
    every offset before it checks any. *)
Theorem digest_queries_all_seven tbl symbol d :
  PyDate.valid d → PyDate.valid (d - 1100) → is_Some (tbl !! (symbol, d)) →
  queries (digest business symbol d tbl).1 = digest_ranges symbol d.
Proof.
  intros Hd Hlast [q Hq].
  rewrite digest_queries_unfold, digest_ranges_targets, decide_True by done.
  rewrite resolve_exact, Hq, digest_config_valid; [|done|].
  - f_equal. apply gather_queries_all.
    unfold targets, OffsetSpec, look_back_default,
      PyDate.valid, PyDate.MINORDINAL, PyDate.MAXORDINAL in *.
    repeat constructor; simpl; lia.
  - unfold PyDate.valid, PyDate.MINORDINAL, PyDate.MAXORDINAL in *. lia.
Qed.

End DigestQueries.

Lemma digest_queries_all_seven_witness :
  (digest Scenario.business_si "ABC" Scenario.as_of Scenario.store_two).2
  = Raise IndexError
  ∧ queries
      (digest Scenario.business_si "ABC" Scenario.as_of Scenario.store_two).1
    = [ ("ABC", 738887, 738887); ("ABC", 738881, 738886);
        ("ABC", 738852, 738857); ("ABC", 738792, 738797);
        ("ABC", 738702, 738707); ("ABC", 738517, 738522);
        ("ABC", 737787, 737792) ].
Proof.
  split; [vm_compute; reflexivity|].
  rewrite (digest_queries_all_seven Scenario.business_si Scenario.store_two
             "ABC" Scenario.as_of).
  - reflexivity.
  - vm_compute; split; discriminate.
  - vm_compute; split; discriminate.
  - vm_compute. by eexists.
Defined.

Section DigestReport.

Variable business : num → string.

Implicit Types (tbl : Table) (rep : Report).

(** Where the symbol and the as-of values sit in the layout, and that
    the layout of six cells per metric leaves no cell open. *)
Lemma laid_out_as_of_cells symbol d a close volume :
  length close = 6%nat → length volume = 6%nat →
  report_cell (laid_out business symbol d a close volume) "CLOSE" "SYMBOL"
  = Some symbol
  ∧ report_cell (laid_out business symbol d a close volume) "VOLUME" "SYMBOL"
    = Some symbol
  ∧ report_cell (laid_out business symbol d a close volume) "CLOSE"
      (PyDate.strftime_a_d_b_y d)
    = Some (formatted_value business (PyFloat (MKT_CLOSE a)) false)
  ∧ report_cell (laid_out business symbol d a close volume) "VOLUME"
      (PyDate.strftime_a_d_b_y d)
    = Some (formatted_value business (PyInt (MKT_VOLUME a)) true)
  ∧ Forall (Forall is_Some) (r_rows (laid_out business symbol d a close volume)).
Proof.
  intros Hclose Hvolume.
  destruct (strftime_fresh d) as (_ & Hsymbol & Hmetric).
  unfold laid_out. generalize dependent (PyDate.strftime_a_d_b_y d).
  intros as_of_label Hsymbol Hmetric.
  destruct close as [|c1 [|c2 [|c3 [|c4 [|c5 [|c6 [|]]]]]]]; try done.
  destruct volume as [|v1 [|v2 [|v3 [|v4 [|v5 [|v6 [|]]]]]]]; try done.
  repeat split;
    try (unfold report_cell; cbn;
         repeat first [ rewrite decide_True by reflexivity
                      | rewrite decide_False by (discriminate || done) ];
         done).
  cbn. repeat constructor; by eexists.
Qed.

(** X15. In every report [digest] returns, both rows carry the symbol
    under SYMBOL; under the column named after the as-of date the CLOSE
    row carries the as-of close with thousands separators and no
    decimals, and the VOLUME row the as-of volume as [ballpark.business]
    writes it, neither with a comparison; and no cell of the report is
    left empty. *)
Theorem digest_report_as_of_cells tbl symbol d rep :
  (digest business symbol d tbl).2 = Ok rep →
  ∃ q,
    tbl !! (symbol, d) = Some q
    ∧ report_cell rep "CLOSE" "SYMBOL" = Some symbol
    ∧ report_cell rep "VOLUME" "SYMBOL" = Some symbol
    ∧ report_cell rep "CLOSE" (PyDate.strftime_a_d_b_y d)
      = Some (PyNum.format_comma_0f (q_close q))
    ∧ report_cell rep "VOLUME" (PyDate.strftime_a_d_b_y d)
      = Some (business (PyInt (q_volume q)))
    ∧ Forall (Forall is_Some) (r_rows rep).
Proof.
  intros (a & bs & close & volume & _ & _ & Ha & Hbs & Hclose & Hvolume
          & ->)%digest_Ok_inv.
  assert (length bs = 6%nat) as Hlen
    by (by rewrite <- (Forall2_length _ _ _ Hbs)).
  apply Forall2_length in Hclose, Hvolume. rewrite Hlen in Hclose, Hvolume.
  rewrite resolve_exact in Ha.
  destruct (tbl !! (symbol, d)) as [q|] eqn:Hq; [|done].
  injection Ha as <-. exists q. split; [done|].
  by apply laid_out_as_of_cells.
Qed.

End DigestReport.

Lemma digest_report_as_of_cells_witness :
  report_cell Scenario.report_full "CLOSE" "SYMBOL" = Some "ABC"
  ∧ report_cell Scenario.report_full "CLOSE" "Tue 02 Jan 24" = Some "100"
  ∧ report_cell Scenario.report_full "VOLUME" "Tue 02 Jan 24" = Some "1M".
Proof.
  destruct (digest_report_as_of_cells Scenario.business_si Scenario.store_full
              "ABC" Scenario.as_of _ digest_store_full)
    as (q & Hq & Hsymbol & _ & Hclose & Hvolume & _).
  vm_compute in Hq. injection Hq as <-.
  split; [exact Hsymbol|]. split; [exact Hclose|exact Hvolume].
Defined.

(** * Properties of the digest command *)

Section DigestCommand.

Import DigestCli.

Variable business : num → string.

Implicit Types (tbl : Table) (rep : Report).

Lemma has_rows_cases tbl symbol :
  has_rows tbl symbol ∨ ¬ has_rows tbl symbol.
Proof.
  destruct (min_max_dates_cases tbl symbol)
    as [[_ Hnone]|(lo & hi & _ & [q Hq] & _)]; [by right|].
  left. by exists lo, q.
Qed.

Lemma main_no_rows tbl symbol date :
  ¬ has_rows tbl symbol →
  main business symbol date tbl = ([DaoMinMax symbol], Raise AttributeError).
Proof.
  intros Hnone. unfold main.
  destruct (min_max_dates_cases tbl symbol)
    as [[-> _]|(lo & hi & _ & [q Hq] & _)]; [done|].
  destruct Hnone. by exists lo, q.
Qed.

(** With rows of the symbol in the store, [main] logs the two dates,
    runs [digest] and ends as it ends. *)
Lemma main_with_rows tbl symbol date :
  has_rows tbl symbol →
  ∃ lo hi,
    min_max_dates tbl symbol = (Some lo, Some hi)
    ∧ (∀ k, is_Some (tbl !! (symbol, k)) → lo ≤ k ≤ hi)
    ∧ main business symbol date tbl
      = match (digest business symbol date tbl).2 with
        | Ok rep =>
            ([DaoMinMax symbol; InfoMinDate symbol lo; InfoMaxDate symbol hi]
               ++ (Service <$> (digest business symbol date tbl).1)
               ++ [Printed rep; InfoFinished], Ok tt)
        | Raise e =>
            ([DaoMinMax symbol; InfoMinDate symbol lo; InfoMaxDate symbol hi]
               ++ (Service <$> (digest business symbol date tbl).1), Raise e)
        end.
Proof.
  intros Hrows. unfold main.
  destruct (min_max_dates_cases tbl symbol)
    as [[_ Hnone]|(lo & hi & -> & _ & _ & Hall)]; [done|].
  exists lo, hi. split; [done|]. split; [done|].
  destruct (digest business symbol date tbl) as [trace [rep|e]]; [|done].
  cbn [fst snd]. by rewrite <- app_assoc.
Qed.

Lemma digest_not_AttributeError tbl symbol d :
  (digest business symbol d tbl).2 ≠ Raise AttributeError.
Proof.
  destruct (digest_cases business tbl symbol d)
    as [[Hd Hr]|[(Hd & Hq & Hr)|[(Hd & Hq & Hl & Hr)|[(Hd & Hq & Hl & Hw & Hr)
        |(Hd & Hq & Hl & Hw & [[rep Hr]|(e & Hr & He)])]]]];
    rewrite Hr; try done.
  intros [= ->]. by destruct He as [|[|]].
Qed.

(** X16. For a symbol with no row in the store the command never
    reaches [digest]: it sends the one query for the earliest and latest
    dates and stops with AttributeError, having logged and printed
    nothing. For a symbol with rows it never ends with AttributeError. *)
Theorem main_unknown_symbol tbl symbol date :
  (¬ has_rows tbl symbol
   ↔ (main business symbol date tbl).2 = Raise AttributeError)
  ∧ (¬ has_rows tbl symbol
     ↔ (main business symbol date tbl).1 = [DaoMinMax symbol]).
Proof.
  destruct (has_rows_cases tbl symbol) as [Hrows|Hnone].
  - destruct (main_with_rows tbl symbol date Hrows)
      as (lo & hi & _ & _ & ->).
    pose proof (digest_not_AttributeError tbl symbol date) as Hne.
    destruct (digest business symbol date tbl) as [trace [rep|e]];
      cbn [fst snd] in *; (split; (split; [done|]));
      intros ?; simplify_eq/=; done.
  - rewrite (main_no_rows _ _ _ Hnone). done.
Qed.

(** X17. Whenever [digest] returns a report for the symbol and date, the
    command ends normally, and what it does is, in order: the query for
    the earliest and latest dates, a log record of each of the two (and
    the as-of date lies between them), everything [digest] does, then the
    report printed once, exactly as [digest] returned it, and the record
    Finished. *)
Theorem main_prints_the_digest tbl symbol date rep :
  (digest business symbol date tbl).2 = Ok rep →
  ∃ lo hi,
    min_max_dates tbl symbol = (Some lo, Some hi)
    ∧ lo ≤ date ≤ hi
    ∧ main business symbol date tbl
      = ([DaoMinMax symbol; InfoMinDate symbol lo; InfoMaxDate symbol hi]
           ++ (Service <$> (digest business symbol date tbl).1)
           ++ [Printed rep; InfoFinished], Ok tt).
Proof.
  intros Hrun.
  destruct (digest_Ok_inv _ _ _ _ _ Hrun)
    as (a & _ & _ & _ & _ & _ & Ha & _).
  rewrite resolve_exact in Ha.
  destruct (tbl !! (symbol, date)) as [q|] eqn:Hq; [|done].
  destruct (main_with_rows tbl symbol date) as (lo & hi & Hmm & Hall & Hmain).
  { by exists date, q. }
  exists lo, hi. split; [done|]. split; [by apply Hall; exists q|].
  by rewrite Hmain, Hrun.
Qed.

(** X18. The command ends with DigestError exactly when the symbol has
    rows in the store, the date is a date of the calendar, and the symbol
    has no bar on that date. *)
Theorem main_DigestError_iff tbl symbol date :
  (main business symbol date tbl).2 = Raise DigestError
  ↔ has_rows tbl symbol ∧ PyDate.valid date ∧ tbl !! (symbol, date) = None.
Proof.
  destruct (has_rows_cases tbl symbol) as [Hrows|Hnone].
  - destruct (main_with_rows tbl symbol date Hrows)
      as (lo & hi & _ & _ & ->).
    rewrite <- (digest_raises_DigestError business).
    destruct (digest business symbol date tbl) as [trace [rep|e]];
      cbn [fst snd]; naive_solver.
  - rewrite (main_no_rows _ _ _ Hnone). split; [done|]. tauto.
Qed.

End DigestCommand.

Lemma main_prints_the_digest_witness :
  DigestCli.main Scenario.business_si "ABC" Scenario.as_of Scenario.store_full
  = ([DigestCli.DaoMinMax "ABC";
      DigestCli.InfoMinDate "ABC" (Scenario.as_of - 1096);
      DigestCli.InfoMaxDate "ABC" Scenario.as_of]
       ++ (DigestCli.Service
             <$> (digest Scenario.business_si "ABC" Scenario.as_of
                    Scenario.store_full).1)
       ++ [DigestCli.Printed Scenario.report_full; DigestCli.InfoFinished],
     Ok tt).
Proof.
  destruct (main_prints_the_digest Scenario.business_si Scenario.store_full
              "ABC" Scenario.as_of _ digest_store_full)
    as (lo & hi & Hmm & _ & Hmain).
  vm_compute in Hmm. injection Hmm as <- <-. exact Hmain.
Defined.

(** * Loading, then the digest *)

Section InsertThenDigest.

Import DigestCli.

Variable business : num → string.

Implicit Types (tbl : Table) (b : Bar) (df : DataFrame).

Lemma insert_is_Some tbl df tbl' b :
  insert tbl df = Ok tbl' → b ∈ rows df → is_Some (tbl' !! key_of b).
Proof.
  intros [_ ->]%insert_Ok_inv Hb.
  rewrite lookup_foldl_upsert. unfold last_with_key.
  destruct (last (filter (λ b', key_of b' = key_of b) (rows df)))
    as [b'|] eqn:Hlast; [done|].
  apply last_None in Hlast.
  assert (b ∈ filter (λ b', key_of b' = key_of b) (rows df)) as Hin
    by (by apply list_elem_of_filter).
  rewrite Hlast in Hin. by apply elem_of_nil in Hin.
Qed.

(** X19. Once a frame holding a bar of a symbol and date has been
    inserted, neither [digest] nor the command, run for that symbol and
    date, ends with DigestError, and the command does not end with
    AttributeError: the as-of bar is found. *)
Theorem digest_after_insert tbl df tbl' b :
  insert tbl df = Ok tbl' → b ∈ rows df →
  (digest business (MKT_SYMBOL b) (MKT_DATE b) tbl').2 ≠ Raise DigestError
  ∧ (main business (MKT_SYMBOL b) (MKT_DATE b) tbl').2 ≠ Raise DigestError
  ∧ (main business (MKT_SYMBOL b) (MKT_DATE b) tbl').2 ≠ Raise AttributeError.
Proof.
  intros Hins Hb.
  destruct (insert_is_Some _ _ _ _ Hins Hb) as [q Hq]. unfold key_of in Hq.
  assert ((digest business (MKT_SYMBOL b) (MKT_DATE b) tbl').2
          ≠ Raise DigestError) as Hdigest.
  { intros [_ Hnone]%digest_raises_DigestError. congruence. }
  split; [done|].
  destruct (main_with_rows business tbl' (MKT_SYMBOL b) (MKT_DATE b))
    as (lo & hi & _ & _ & ->).
  { by exists (MKT_DATE b), q. }
  pose proof (digest_not_AttributeError business tbl' (MKT_SYMBOL b)
                (MKT_DATE b)) as Hattr.
  destruct (digest business (MKT_SYMBOL b) (MKT_DATE b) tbl')
    as [trace [rep|e]]; cbn [fst snd] in *; [done|].
  split; congruence.
Qed.

End InsertThenDigest.

Lemma digest_after_insert_witness :
  insert ∅ (Scenario.frame Scenario.two_bars) = Ok Scenario.store_two
  ∧ (digest Scenario.business_si "ABC" Scenario.as_of Scenario.store_two).2
    ≠ Raise DigestError
  ∧ (DigestCli.main Scenario.business_si "ABC" Scenario.as_of
       Scenario.store_two).2 ≠ Raise AttributeError.
Proof.
  assert (insert ∅ (Scenario.frame Scenario.two_bars) = Ok Scenario.store_two)
    as Hins by (vm_compute; reflexivity).
  assert (Scenario.bar Scenario.as_of 100 1000000 ∈ Scenario.two_bars)
    as Hin by left.
  split; [exact Hins|].
  destruct (digest_after_insert Scenario.business_si _ _ _ _ Hins Hin)
    as (Hdigest & _ & Hmain).
  split; [exact Hdigest|exact Hmain].
Defined.
